(** * mongo_connector.doc_managers.formatters

    A shallow embedding of [formatters.py]: the [DataType] enumeration with
    its classifier, the value normaliser [transform_value], and the two
    document formatters [DefaultDocumentFormatter] and [DocumentFlattener].

    Conventions of the embedding.
    - The Python 3 branch of [compat.PY3] is the one modelled
      ([long = int], [unicode = str], [bytes] counts as binary).
    - A Python exception is a value of [exn]; a call that may raise returns
      a [result].  [try: ... except:] is [try_except].
    - A [dict] is an association list in insertion order (keys of a BSON
      document are strings); [dict(pairs)] inserts the pairs one by one,
      a repeated key keeps its first position and takes the last value.
    - A generator is the trace it produces when it is drained: the items it
      yields, and the exception that ends it, if any.
    - The interpreter's recursion limit is not modelled here: BSON documents
      nest at most 100 levels deep.

    The code is embedded twice.  In the first embedding a document is a tree
    ([pyvalue]); the claims about what the functions return are settled on
    it.  In the second ([Store]) lists and dicts are objects of a store that
    the code reads, allocates and writes, and the depth of the call stack is
    bounded; the claim that the input is left unchanged is settled on it.
    Sample runs of both are compared below. *)

From Stdlib Require Import String Ascii List ZArith NArith Bool Arith Lia.
From Stdlib Require Import Floats.SpecFloat.
From Stdlib Require Import DecimalString.
From Stdlib Require Import Permutation.
Import ListNotations.
Open Scope string_scope.

Set Implicit Arguments.
Set Warnings "-register-all".

(** ** Exceptions and results *)

Inductive exn : Type :=
| ValueError (msg : string)
| TypeError
| KeyError
| IndexError
| OverflowError
| UnboundLocalError
| RecursionError.

Inductive result (A : Type) : Type :=
| Ok (a : A)
| Raise (e : exn).
Arguments Ok {A} a.
Arguments Raise {A} e.

Definition bind {A B} (r : result A) (f : A -> result B) : result B :=
  match r with
  | Ok a => f a
  | Raise e => Raise e
  end.

Notation "x <- c1 ;; c2" := (bind c1 (fun x => c2))
  (at level 61, c1 at next level, right associativity).

(** [try: body except: handler] with a bare [except]. *)
Definition try_except {A} (body : result A) (handler : exn -> result A) : result A :=
  match body with
  | Ok a => Ok a
  | Raise e => handler e
  end.

(** ** Strings *)

(** [key.startswith(p)] *)
Definition startswith (key p : string) : bool := String.prefix p key.

(** [key[n:]] *)
Fixpoint slice_from (n : nat) (key : string) : string :=
  match n, key with
  | O, _ => key
  | S n', String _ rest => slice_from n' rest
  | S _, EmptyString => EmptyString
  end.

(** [sep.join(parts)] *)
Fixpoint join (sep : string) (parts : list string) : string :=
  match parts with
  | [] => ""
  | [p] => p
  | p :: rest => p ++ sep ++ join sep rest
  end.

(** ["%s" % i] for a non-negative index [i] *)
Definition str_of_nat (i : nat) : string := NilZero.string_of_uint (Nat.to_uint i).

(** ["%s.%s" % (a, b)] *)
Definition dotted (a b : string) : string := a ++ "." ++ b.

(** ** Python values *)

(** The runtime classes the module distinguishes. *)
Inductive pytype : Type :=
| NoneType | bool_t | int_t | float_t | str_t | datetime_t
| Pattern_t | bytes_t | Binary_t | UUID_t | list_t | dict_t
| other_t (name : string).

Inductive pyvalue : Type :=
| VNone
| VBool (b : bool)
| VInt (n : Z)
| VFloat (f : spec_float)
| VStr (s : string)
| VDatetime (micros : Z)
| VRegex (pattern : string) (flags : Z)
| VBytes (data : list Byte.byte)
| VBinary (data : list Byte.byte) (subtype : N)
| VUUID (int128 : N)
| VOther (cls : string) (text : string)
| VList (items : list pyvalue)
| VDict (fields : list (string * pyvalue)).

Definition dict : Type := list (string * pyvalue).

(** [type(value)] *)
Definition type_of (v : pyvalue) : pytype :=
  match v with
  | VNone => NoneType
  | VBool _ => bool_t
  | VInt _ => int_t
  | VFloat _ => float_t
  | VStr _ => str_t
  | VDatetime _ => datetime_t
  | VRegex _ _ => Pattern_t
  | VBytes _ => bytes_t
  | VBinary _ _ => Binary_t
  | VUUID _ => UUID_t
  | VOther cls _ => other_t cls
  | VList _ => list_t
  | VDict _ => dict_t
  end.

Definition pytype_eqb (a b : pytype) : bool :=
  match a, b with
  | NoneType, NoneType | bool_t, bool_t | int_t, int_t | float_t, float_t
  | str_t, str_t | datetime_t, datetime_t | Pattern_t, Pattern_t
  | bytes_t, bytes_t | Binary_t, Binary_t | UUID_t, UUID_t
  | list_t, list_t | dict_t, dict_t => true
  | other_t n, other_t m => String.eqb n m
  | _, _ => false
  end.

(** [issubclass(a, b)]: [bool] derives from [int], [bson.Binary] from [bytes]. *)
Definition issubclass (a b : pytype) : bool :=
  pytype_eqb a b ||
  match a, b with
  | bool_t, int_t => true
  | Binary_t, bytes_t => true
  | _, _ => false
  end.

(** [isinstance(value, classes)] for a tuple of classes *)
Definition isinstance (v : pyvalue) (classes : list pytype) : bool :=
  existsb (issubclass (type_of v)) classes.

(** *** Dictionaries *)

(** The operations on the fields of a dict do not look at the values; they
    are shared with the store model below, where a value is a reference. *)

Definition keys {A} (d : list (string * A)) : list string := map fst d.

(** [k in d] *)
Definition contains {A} (d : list (string * A)) (k : string) : bool :=
  existsb (String.eqb k) (keys d).

(** [d[k]] *)
Fixpoint getitem {A} (d : list (string * A)) (k : string) : result A :=
  match d with
  | [] => Raise KeyError
  | (k', v) :: rest => if String.eqb k k' then Ok v else getitem rest k
  end.

(** [d[k] = v] *)
Fixpoint setitem {A} (d : list (string * A)) (k : string) (v : A)
  : list (string * A) :=
  match d with
  | [] => [(k, v)]
  | (k', v') :: rest =>
      if String.eqb k k' then (k', v) :: rest else (k', v') :: setitem rest k v
  end.

(** [dict(pairs)] for a finished sequence of pairs *)
Definition dict_of (pairs : list (string * pyvalue)) : dict :=
  fold_left (fun d kv => setitem d (fst kv) (snd kv)) pairs [].

(** ** DataType *)

Module DataType.

Inductive t : Type :=
| BOOL | LONG | DOUBLE | STRING | DICT | DATETIME | GEOPOINT | UNKNOWN.

Definition eqb (a b : t) : bool :=
  match a, b with
  | BOOL, BOOL | LONG, LONG | DOUBLE, DOUBLE | STRING, STRING
  | DICT, DICT | DATETIME, DATETIME | GEOPOINT, GEOPOINT
  | UNKNOWN, UNKNOWN => true
  | _, _ => false
  end.

(** Iteration over the enumeration, in declaration order. *)
Definition members : list t :=
  [BOOL; LONG; DOUBLE; STRING; DICT; DATETIME; GEOPOINT; UNKNOWN].

(** [__str__] *)
Definition to_str (self : t) : string :=
  match self with
  | BOOL => "bool"
  | LONG => "long"
  | DOUBLE => "double"
  | STRING => "string"
  | DICT => "object"
  | DATETIME => "datetime"
  | GEOPOINT => "geopoint"
  | UNKNOWN => ""
  end.

Definition equatable : list t := [BOOL; LONG; DOUBLE; STRING; UNKNOWN].

Definition comparable : list t := [LONG; DOUBLE; DATETIME].

Definition baseTypes : list t := [BOOL; LONG; DOUBLE; STRING; DATETIME].

Definition fromStr (typeStr : string) : t :=
  if String.eqb typeStr "bool" then BOOL
  else if String.eqb typeStr "long" then LONG
  else if String.eqb typeStr "double" then DOUBLE
  else if String.eqb typeStr "string" then STRING
  else if String.eqb typeStr "object" then DICT
  else if String.eqb typeStr "datetime" then DATETIME
  else if String.eqb typeStr "geopoint" then GEOPOINT
  else if String.eqb typeStr "" then UNKNOWN
  else UNKNOWN.

Definition prefix (self : t) : string :=
  if eqb self UNKNOWN then "" else to_str self ++ "_".

Definition isGeoPoint {A} (value : list (string * A)) : bool :=
  (length (keys value) =? 2)%nat && contains value "lat" && contains value "lon".

Definition typeForDictValue {A} (value : list (string * A)) : t :=
  if isGeoPoint value then GEOPOINT else DICT.

(** The table of [forValue], looked up by [type(value)]; a class that is
    not a key raises [KeyError]. *)
Definition type_table (c : pytype) : result t :=
  match c with
  | bool_t => Ok BOOL
  | int_t => Ok LONG
  | float_t => Ok DOUBLE
  | str_t => Ok STRING
  | datetime_t => Ok DATETIME
  | _ => Raise KeyError
  end.

Fixpoint forValue (value : pyvalue) : result t :=
  try_except
    (match value with
     | VDict d => Ok (typeForDictValue d)
     | VList l =>
         match l with
         | [] => Raise IndexError
         | first :: _ => forValue first
         end
     | _ => type_table (type_of value)
     end)
    (fun _ => Ok UNKNOWN).

Fixpoint attributeNameFrom (types : list t) (key : string) : string :=
  match types with
  | [] => key
  | value_type :: rest =>
      if startswith key (prefix value_type)
      then slice_from (String.length (prefix value_type)) key
      else attributeNameFrom rest key
  end.

Definition attributeNameFromKey (key : string) : string :=
  attributeNameFrom members key.

End DataType.

(** ** The value normaliser: the branches of [transform_value] below the
    tests for [dict] and [list] *)

(** [re] flag bits *)
Definition re_IGNORECASE : Z := 2.
Definition re_LOCALE : Z := 4.
Definition re_MULTILINE : Z := 8.
Definition re_DOTALL : Z := 16.
Definition re_UNICODE : Z := 32.
Definition re_VERBOSE : Z := 64.

(** [value.pattern] and [value.flags] of a pattern object *)
Definition pattern_of (v : pyvalue) : string :=
  match v with VRegex p _ => p | _ => "" end.
Definition flags_of (v : pyvalue) : Z :=
  match v with VRegex _ f => f | _ => 0%Z end.

(** [if flags & bit: acc += letter] *)
Definition add_flag (flags bit : Z) (letter acc : string) : string :=
  if (Z.land flags bit =? 0)%Z then acc else acc ++ letter.

Definition regex_notation (v : pyvalue) : string :=
  let f := flags_of v in
  let flags := "" in
  let flags := add_flag f re_IGNORECASE "i" flags in
  let flags := add_flag f re_LOCALE "l" flags in
  let flags := add_flag f re_MULTILINE "m" flags in
  let flags := add_flag f re_DOTALL "s" flags in
  let flags := add_flag f re_UNICODE "u" flags in
  let flags := add_flag f re_VERBOSE "x" flags in
  "/" ++ pattern_of v ++ "/" ++ flags.

(** [base64.b64encode(data).decode()] *)
Definition b64_alphabet : string :=
  "ABCDEFGHIJKLMNOPQRSTUVWXYZabcdefghijklmnopqrstuvwxyz0123456789+/".

Definition b64_char (n : N) : string :=
  match String.get (N.to_nat n) b64_alphabet with
  | Some c => String c ""
  | None => "="
  end.

Fixpoint b64encode (data : list Byte.byte) : string :=
  match data with
  | [] => ""
  | [a] =>
      let a := Byte.to_N a in
      b64_char (N.shiftr a 2) ++ b64_char (N.shiftl (N.land a 3) 4) ++ "=="
  | [a; b] =>
      let a := Byte.to_N a in
      let b := Byte.to_N b in
      b64_char (N.shiftr a 2)
      ++ b64_char (N.lor (N.shiftl (N.land a 3) 4) (N.shiftr b 4))
      ++ b64_char (N.shiftl (N.land b 15) 2) ++ "="
  | a :: b :: c :: rest =>
      let a := Byte.to_N a in
      let b := Byte.to_N b in
      let c := Byte.to_N c in
      b64_char (N.shiftr a 2)
      ++ b64_char (N.lor (N.shiftl (N.land a 3) 4) (N.shiftr b 4))
      ++ b64_char (N.lor (N.shiftl (N.land b 15) 2) (N.shiftr c 6))
      ++ b64_char (N.land c 63)
      ++ b64encode rest
  end.

Definition bytes_of (v : pyvalue) : list Byte.byte :=
  match v with VBytes d => d | VBinary d _ => d | _ => [] end.

(** [value.hex] of a UUID: 32 lowercase hexadecimal digits *)
Definition hex_digit (n : N) : string :=
  match String.get (N.to_nat n) "0123456789abcdef" with
  | Some c => String c ""
  | None => ""
  end.

Fixpoint hex_digits (width : nat) (n : N) (acc : string) : string :=
  match width with
  | O => acc
  | S w => hex_digits w (N.shiftr n 4) (hex_digit (N.land n 15) ++ acc)
  end.

Definition uuid_hex (v : pyvalue) : string :=
  match v with VUUID n => hex_digits 32 n "" | _ => "" end.

(** [math.isnan] and [math.isinf] convert their argument to a C double
    first.  An [int] is rounded to the nearest double, ties to even; one
    that rounds beyond the largest double raises [OverflowError].  A [bool]
    is the [int] 0 or 1. *)
Definition double_of_int (n : Z) : result spec_float :=
  match binary_normalize 53 1024 n 0 false with
  | S754_infinity _ => Raise OverflowError
  | f => Ok f
  end.

Definition as_double (v : pyvalue) : result spec_float :=
  match v with
  | VFloat f => Ok f
  | VInt n => double_of_int n
  | VBool b => double_of_int (if b then 1 else 0)
  | _ => Raise TypeError
  end.

Definition isnan (v : pyvalue) : result bool :=
  f <- as_double v ;;
  Ok (match f with S754_nan => true | _ => false end).

Definition isinf (v : pyvalue) : result bool :=
  f <- as_double v ;;
  Ok (match f with S754_infinity _ => true | _ => false end).

(** [unicode(value)]; only a [str] and the classes the module does not
    know reach the fallback of [transform_value], the earlier branches take
    the others. *)
Definition unicode (v : pyvalue) : string :=
  match v with
  | VStr s => s
  | VOther _ text => text
  | VNone => "None"
  | VBool true => "True"
  | VBool false => "False"
  | _ => ""
  end.

Definition is_None (v : pyvalue) : bool :=
  match v with VNone => true | _ => false end.

Definition transform_leaf (value : pyvalue) : result pyvalue :=
  if isinstance value [Pattern_t] then
    Ok (VStr (regex_notation value))
  else if isinstance value [Binary_t] || isinstance value [bytes_t] then
    Ok (VStr (b64encode (bytes_of value)))
  else if isinstance value [UUID_t] then
    Ok (VStr (uuid_hex value))
  else if isinstance value [int_t; int_t; float_t] then
    nan <- isnan value ;;
    if nan then Raise (ValueError "nan")
    else
      inf <- isinf value ;;
      if inf then Raise (ValueError "inf") else Ok value
  else if isinstance value [datetime_t] then
    Ok value
  else if is_None value then
    Ok value
  else
    Ok (VStr (unicode value)).

(** ** Logging

    [LOG.warn] appends to the log; a computation of the default formatter
    is its result together with the warnings it has logged, in order, also
    when it ends in an exception. *)

Definition logged (A : Type) : Type := (result A * list string)%type.

Definition ret {A} (a : A) : logged A := (Ok a, []).

Definition lift {A} (r : result A) : logged A := (r, []).

Definition bindL {A B} (c : logged A) (f : A -> logged B) : logged B :=
  match c with
  | (Ok a, w) => let (r, w') := f a in (r, (w ++ w')%list)
  | (Raise e, w) => (Raise e, w)
  end.

Notation "x <-- c1 ;; c2" := (bindL c1 (fun x => c2))
  (at level 61, c1 at next level, right associativity).

Definition LOG_warn (msg : string) : logged unit := (Ok tt, [msg]).

(** ** DefaultDocumentFormatter *)

Module DefaultDocumentFormatter.

(** [[self.transform_value(v) for v in value]] *)
Definition comprehension (tv : pyvalue -> logged pyvalue)
  : list pyvalue -> logged (list pyvalue) :=
  fix go (items : list pyvalue) : logged (list pyvalue) :=
    match items with
    | [] => ret []
    | v :: rest =>
        v' <-- tv v ;;
        rest' <-- go rest ;;
        ret (v' :: rest')
    end.

(** [transform_element], given the method [transform_value] of [self]:
    the pairs it yields (none or one). *)
Definition transform_element_with (tv : pyvalue -> logged pyvalue)
  (key : string) (value : pyvalue) : logged (list (string * pyvalue)) :=
  match tv value with
  | (Ok new_value, w) => (Ok [(key, new_value)], w)
  | (Raise (ValueError msg), w) =>
      (Ok [], app w [("Invalid value for key: " ++ key ++ " as " ++ msg)%string])
  | (Raise e, w) => (Raise e, w)
  end.

(** The body of the inner loop of [_kernel] for one pair [(new_k, new_v)]:
    the local variable [new_key] before ([None] while it is unbound) and
    after, and the pair yielded. *)
Definition kernel_body (first_call : bool) (new_key : option string)
  (new_k : string) (new_v : pyvalue)
  : result (option string * (string * pyvalue)) :=
  new_key' <-
    (if first_call then
       ty <- DataType.forValue new_v ;;
       let prefix := DataType.prefix ty in
       if negb (startswith new_k prefix)
       then Ok (Some (prefix ++ new_k))
       else Ok new_key
     else Ok (Some new_k)) ;;
  match new_key' with
  | Some k => Ok (new_key', (k, new_v))
  | None => Raise UnboundLocalError
  end.

(** [for new_k, new_v in pairs: ...] *)
Fixpoint kernel_inner (first_call : bool) (new_key : option string)
  (pairs : list (string * pyvalue))
  : result (option string * list (string * pyvalue)) :=
  match pairs with
  | [] => Ok (new_key, [])
  | (new_k, new_v) :: rest =>
      step <- kernel_body first_call new_key new_k new_v ;;
      more <- kernel_inner first_call (fst step) rest ;;
      Ok (fst more, snd step :: snd more)
  end.

(** [_kernel(doc)]: the pairs it yields. *)
Definition kernel_with (tv : pyvalue -> logged pyvalue) (first_call : bool)
  : dict -> option string -> logged (list (string * pyvalue)) :=
  fix go (doc : dict) (new_key : option string) :=
    match doc with
    | [] => ret []
    | (key, value) :: rest =>
        pairs <-- transform_element_with tv key value ;;
        step <-- lift (kernel_inner first_call new_key pairs) ;;
        more <-- go rest (fst step) ;;
        ret (snd step ++ more)%list
    end.

Fixpoint transform_value (value : pyvalue) : logged pyvalue :=
  match value with
  | VDict d =>
      (* self.format_document(value, False) *)
      pairs <-- kernel_with transform_value false d None ;;
      ret (VDict (dict_of pairs))
  | VList l =>
      l' <-- comprehension transform_value l ;;
      ret (VList l')
  | _ => lift (transform_leaf value)
  end.

Definition transform_element (key : string) (value : pyvalue)
  : logged (list (string * pyvalue)) :=
  transform_element_with transform_value key value.

Definition _kernel (first_call : bool) (doc : dict)
  : logged (list (string * pyvalue)) :=
  kernel_with transform_value first_call doc None.

Definition format_document (document : dict) (first_call : bool) : logged dict :=
  pairs <-- _kernel first_call document ;;
  ret (dict_of pairs).

End DefaultDocumentFormatter.

Definition nan : spec_float := S754_nan.
Definition float_1 : spec_float := S754_finite false 4503599627370496 (-52).

(** ** Generators

    The trace of a drained generator: what it yields, and the exception it
    ends with.  The consumer runs between two items, so an exception of the
    loop body comes before whatever the generator would do next. *)

Definition gen (A : Type) : Type := (list A * option exn)%type.

Definition gen_empty {A} : gen A := ([], None).
Definition gen_yield {A} (a : A) : gen A := ([a], None).
Definition gen_raise {A} (e : exn) : gen A := ([], Some e).

(** One generator body after another. *)
Definition gen_seq {A} (g1 g2 : gen A) : gen A :=
  match g1 with
  | (xs, Some e) => (xs, Some e)
  | (xs, None) => let (ys, e) := g2 in ((xs ++ ys)%list, e)
  end.

Fixpoint for_items {A B} (items : list A) (body : A -> gen B) : gen B :=
  match items with
  | [] => gen_empty
  | x :: rest => gen_seq (body x) (for_items rest body)
  end.

(** [for x in g: body(x)] inside a generator *)
Definition gen_for {A B} (g : gen A) (body : A -> gen B) : gen B :=
  gen_seq (for_items (fst g) body)
          (match snd g with Some e => gen_raise e | None => gen_empty end).

(** [dict(g)] *)
Definition dict_of_gen (g : gen (string * pyvalue)) : result dict :=
  match g with
  | (pairs, None) => Ok (dict_of pairs)
  | (_, Some e) => Raise e
  end.

(** ** DocumentFlattener *)

Module DocumentFlattener.

(** [transform_value] is inherited; on this class [self.format_document]
    is the override below, which takes no [first_call] argument. *)
Fixpoint transform_value (value : pyvalue) : result pyvalue :=
  match value with
  | VDict _ => Raise TypeError
  | VList l =>
      l' <- (fix go (items : list pyvalue) : result (list pyvalue) :=
               match items with
               | [] => Ok []
               | v :: rest =>
                   v' <- transform_value v ;;
                   rest' <- go rest ;;
                   Ok (v' :: rest')
               end) l ;;
      Ok (VList l')
  | _ => transform_leaf value
  end.

(** [DataType.forValue(new_v).prefix + new_k]: the attribute [prefix] is
    not called, and a bound method cannot be added to a [str]. *)
Definition bound_method_plus (method : DataType.t -> string)
  (self : DataType.t) (new_k : string) : result string :=
  Raise TypeError.

(** The body of [flatten]'s loop for a field that is not a [dict]. *)
Definition emit (top_level : bool) (path_string : string)
  (pair : string * pyvalue) : gen (string * pyvalue) :=
  let (new_k, new_v) := pair in
  if top_level then
    match (ty <- DataType.forValue new_v ;;
           bound_method_plus DataType.prefix ty new_k) with
    | Ok new_key => gen_yield (new_key, new_v)
    | Raise e => gen_raise e
    end
  else gen_yield (dotted path_string new_k, new_v).

(** [flatten(doc, path)], given [flatten] on the nested documents and
    [self.transform_element]. *)
Definition flatten_with
  (flatten : pyvalue -> list string -> gen (string * pyvalue))
  (transform_element : string -> pyvalue -> gen (string * pyvalue))
  (path : list string) : dict -> gen (string * pyvalue) :=
  let top_level := (length path =? 0)%nat in
  let path_string := join "." path in
  fix go (doc : dict) : gen (string * pyvalue) :=
    match doc with
    | [] => gen_empty
    | (k, v) :: rest =>
        gen_seq
          (if isinstance v [dict_t]
           then flatten v (path ++ [k])%list
           else gen_for (transform_element k v) (emit top_level path_string))
          (go rest)
    end.

(** [for li, lv in enumerate(value): ...] from index [li] on *)
Definition enumerate_with
  (transform_element : string -> pyvalue -> gen (string * pyvalue))
  (key : string) : list pyvalue -> nat -> gen (string * pyvalue) :=
  fix go (items : list pyvalue) (li : nat) : gen (string * pyvalue) :=
    match items with
    | [] => gen_empty
    | lv :: rest =>
        gen_seq (transform_element (dotted key (str_of_nat li)) lv)
                (go rest (S li))
    end.

(** [flatten_value doc path] is [flatten(doc, path)]; it is only ever
    called on a [dict]. *)
Fixpoint flatten_value (doc : pyvalue) (path : list string) {struct doc}
  : gen (string * pyvalue) :=
  match doc with
  | VDict d => flatten_with flatten_value transform_element path d
  | _ => gen_raise TypeError
  end
with transform_element (key : string) (value : pyvalue) {struct value}
  : gen (string * pyvalue) :=
  match value with
  | VList l => enumerate_with transform_element key l 0
  | VDict d =>
      (* formatted = self.format_document(value) *)
      match dict_of_gen (flatten_with flatten_value transform_element [] d) with
      | Ok formatted =>
          (map (fun kv => (dotted key (fst kv), snd kv)) formatted, None)
      | Raise e => gen_raise e
      end
  | _ =>
      match transform_value value with
      | Ok new_value => gen_yield (key, new_value)
      | Raise e => gen_raise e
      end
  end.

Definition flatten (doc : dict) (path : list string) : gen (string * pyvalue) :=
  flatten_with flatten_value transform_element path doc.

Definition format_document (document : dict) : result dict :=
  dict_of_gen (flatten document []).

End DocumentFlattener.

Definition spec_example : dict :=
  [("a", VInt 2);
   ("b", VDict [("c", VDict [("d", VInt 5)])]);
   ("e", VList [VInt 6; VInt 7; VInt 8])].

(** ** Paths to the leaves of a document

    [leaf_at v segs x]: following the segments [segs] from [v] (a field
    name into a dict, a decimal index into a list) ends at a value that is
    neither a dict nor a list and that [transform_value] normalises to
    [x]. *)

Inductive leaf_at : pyvalue -> list string -> pyvalue -> Prop :=
| leaf_field (d : dict) (k : string) (v : pyvalue) (segs : list string) (x : pyvalue) :
    In (k, v) d -> leaf_at v segs x -> leaf_at (VDict d) (k :: segs) x
| leaf_item (l : list pyvalue) (i : nat) (v : pyvalue) (segs : list string) (x : pyvalue) :
    nth_error l i = Some v -> leaf_at v segs x ->
    leaf_at (VList l) (str_of_nat i :: segs) x
| leaf_here (v x : pyvalue) :
    isinstance v [dict_t; list_t] = false ->
    transform_leaf v = Ok x ->
    leaf_at v [] x.

(** What the keys yielded by [flatten] and by [transform_element] of the
    flattener are to be, for one value. *)

Definition flat_ok (v : pyvalue) : Prop :=
  forall path k x,
    In (k, x) (fst (DocumentFlattener.flatten_value v path)) ->
    exists segs, segs <> [] /\ leaf_at v segs x /\ k = join "." (path ++ segs).

Definition elem_ok (v : pyvalue) : Prop :=
  forall key k x,
    In (k, x) (fst (DocumentFlattener.transform_element key v)) ->
    exists segs, leaf_at v segs x /\ k = join "." (key :: segs).

(** ** The same code over a store

    The model above treats a document as a tree, which cannot express that
    the input is left alone.  Here a list or a dict is an object at a
    location of a store, a value refers to it, and the code reads,
    allocates and writes objects as the Python code does.  A generator is
    run by handing it the body of the loop that consumes it ([yield]).
    Recursion is on [fuel], the depth of the call stack that is left; a
    call with no fuel raises [RecursionError].  A loop reads the fields or
    items of its container when it starts. *)

Module Store.

Definition loc : Type := nat.

(** What a variable holds: an immutable value, or a reference to a list or
    a dict. *)
Inductive ref : Type :=
| Imm (v : pyvalue)
| Ptr (l : loc).

Inductive obj : Type :=
| OList (items : list ref)
| ODict (fields : list (string * ref)).

Record state : Type := mkState { heap : list obj; warnings : list string }.

Definition M (A : Type) : Type := state -> result A * state.

Definition ret {A} (a : A) : M A := fun s => (Ok a, s).

Definition raise {A} (e : exn) : M A := fun s => (Raise e, s).

Definition bind {A B} (m : M A) (f : A -> M B) : M B :=
  fun s =>
    match m s with
    | (Ok a, s') => f a s'
    | (Raise e, s') => (Raise e, s')
    end.

Definition lift {A} (r : result A) : M A := fun s => (r, s).

(** [try: m except: handler] *)
Definition catch {A} (m : M A) (handler : exn -> M A) : M A :=
  fun s =>
    match m s with
    | (Ok a, s') => (Ok a, s')
    | (Raise e, s') => handler e s'
    end.

(** The result of [m], exception included, as a value. *)
Definition attempt {A} (m : M A) : M (result A) :=
  fun s => let (r, s') := m s in (Ok r, s').

Definition deref (l : loc) : M obj :=
  fun s =>
    match nth_error (heap s) l with
    | Some o => (Ok o, s)
    | None => (Raise TypeError, s)
    end.

(** A new object. *)
Definition alloc (o : obj) : M loc :=
  fun s => (Ok (length (heap s)), mkState (heap s ++ [o]) (warnings s)).

Fixpoint update (h : list obj) (l : loc) (o : obj) : list obj :=
  match h, l with
  | [], _ => []
  | _ :: rest, O => o :: rest
  | x :: rest, S l' => x :: update rest l' o
  end.

(** The object at [l] becomes [o]: every mutation of a list or dict. *)
Definition write (l : loc) (o : obj) : M unit :=
  fun s => (Ok tt, mkState (update (heap s) l o) (warnings s)).

Definition LOG_warn (msg : string) : M unit :=
  fun s => (Ok tt, mkState (heap s) (warnings s ++ [msg])).

Definition fields_of (document : ref) : M (list (string * ref)) :=
  match document with
  | Ptr l =>
      bind (deref l) (fun o =>
        match o with ODict d => ret d | OList _ => raise TypeError end)
  | Imm _ => raise TypeError
  end.

Definition items_of (value : ref) : M (list ref) :=
  match value with
  | Ptr l =>
      bind (deref l) (fun o =>
        match o with OList items => ret items | ODict _ => raise TypeError end)
  | Imm _ => raise TypeError
  end.

(** [type(value)] *)
Definition type_of_ref (value : ref) : M pytype :=
  match value with
  | Imm v => ret (type_of v)
  | Ptr l =>
      bind (deref l) (fun o =>
        match o with OList _ => ret list_t | ODict _ => ret dict_t end)
  end.

Definition isinstance_ref (value : ref) (classes : list pytype) : M bool :=
  bind (type_of_ref value) (fun c => ret (existsb (issubclass c) classes)).

(** [d[k] = v] on the dict at [l] *)
Definition dict_setitem (l : loc) (k : string) (v : ref) : M unit :=
  bind (fields_of (Ptr l)) (fun d => write l (ODict (setitem d k v))).

(** [path.append(k)] and [path.pop()] on the list at [l] *)
Definition list_append (l : loc) (x : ref) : M unit :=
  bind (items_of (Ptr l)) (fun items => write l (OList (items ++ [x]))).

Definition list_pop (l : loc) : M unit :=
  bind (items_of (Ptr l)) (fun items =>
    match items with
    | [] => raise IndexError
    | _ => write l (OList (removelast items))
    end).

(** [for x in items: body(x)] *)
Fixpoint for_each {A} (items : list A) (body : A -> M unit) : M unit :=
  match items with
  | [] => ret tt
  | x :: rest => bind (body x) (fun _ => for_each rest body)
  end.

(** [for x in items: acc = body(acc, x)], for a loop that carries a local
    variable from one round to the next. *)
Fixpoint for_fold {A S} (items : list A) (acc : S) (body : S -> A -> M S) : M S :=
  match items with
  | [] => ret acc
  | x :: rest => bind (body acc x) (fun acc' => for_fold rest acc' body)
  end.

(** [for li, lv in enumerate(items)] from index [li] on *)
Fixpoint for_enumerate (items : list ref) (li : nat)
  (body : nat -> ref -> M unit) : M unit :=
  match items with
  | [] => ret tt
  | lv :: rest => bind (body li lv) (fun _ => for_enumerate rest (S li) body)
  end.

(** [[f(v) for v in items]] *)
Fixpoint comprehension (f : ref -> M ref) (items : list ref) : M (list ref) :=
  match items with
  | [] => ret []
  | v :: rest =>
      bind (f v) (fun v' =>
      bind (comprehension f rest) (fun rest' => ret (v' :: rest')))
  end.

(** [dict(g)]: a new dict, filled as the generator [g] yields. *)
Definition dict_from (g : (string * ref -> M unit) -> M unit) : M ref :=
  bind (alloc (ODict [])) (fun l =>
  bind (g (fun kv => dict_setitem l (fst kv) (snd kv))) (fun _ =>
  ret (Ptr l))).

(** [DataType.forValue] *)
Fixpoint forValue (fuel : nat) (value : ref) : M DataType.t :=
  match fuel with
  | O => raise RecursionError
  | S fuel' =>
      catch
        (bind (isinstance_ref value [dict_t]) (fun is_dict =>
         if is_dict then
           bind (fields_of value) (fun d => ret (DataType.typeForDictValue d))
         else
           bind (isinstance_ref value [list_t]) (fun is_list =>
           if is_list then
             bind (items_of value) (fun items =>
               match items with
               | [] => raise IndexError
               | first :: _ => forValue fuel' first
               end)
           else
             bind (type_of_ref value) (fun c => lift (DataType.type_table c)))))
        (fun _ => ret DataType.UNKNOWN)
  end.

(** The branches of [transform_value] below the tests for dict and list. *)
Definition transform_scalar (value : ref) : M ref :=
  match value with
  | Imm v => bind (lift (transform_leaf v)) (fun v' => ret (Imm v'))
  | Ptr _ => raise TypeError
  end.

Module DefaultDocumentFormatter.

(** The body of the inner loop of [_kernel]; [new_key] is [None] while the
    local variable is unbound. *)
Definition kernel_body (fuel : nat) (first_call : bool)
  (yield : string * ref -> M unit) (new_key : option string)
  (pair : string * ref) : M (option string) :=
  let (new_k, new_v) := pair in
  bind (if first_call then
          bind (forValue fuel new_v) (fun ty =>
          let prefix := DataType.prefix ty in
          if negb (startswith new_k prefix)
          then ret (Some (prefix ++ new_k))
          else ret new_key)
        else ret (Some new_k)) (fun new_key' =>
  match new_key' with
  | Some k => bind (yield (k, new_v)) (fun _ => ret new_key')
  | None => raise UnboundLocalError
  end).

Fixpoint transform_value (fuel : nat) (value : ref) {struct fuel} : M ref :=
  match fuel with
  | O => raise RecursionError
  | S fuel' =>
      bind (isinstance_ref value [dict_t]) (fun is_dict =>
      if is_dict then format_document fuel' value false
      else
        bind (isinstance_ref value [list_t]) (fun is_list =>
        if is_list then
          bind (items_of value) (fun items =>
          bind (comprehension (transform_value fuel') items) (fun items' =>
          bind (alloc (OList items')) (fun l => ret (Ptr l))))
        else transform_scalar value))
  end

(** The pairs [transform_element] yields: it yields after its work is done
    and does nothing afterwards. *)
with transform_element (fuel : nat) (key : string) (value : ref) {struct fuel}
  : M (list (string * ref)) :=
  match fuel with
  | O => raise RecursionError
  | S fuel' =>
      bind (attempt (transform_value fuel' value)) (fun r =>
      match r with
      | Ok new_value => ret [(key, new_value)]
      | Raise (ValueError msg) =>
          bind (LOG_warn ("Invalid value for key: " ++ key ++ " as " ++ msg))
               (fun _ => ret [])
      | Raise e => raise e
      end)
  end

with _kernel (fuel : nat) (first_call : bool) (doc : ref)
  (yield : string * ref -> M unit) {struct fuel} : M unit :=
  match fuel with
  | O => raise RecursionError
  | S fuel' =>
      bind (fields_of doc) (fun fields =>
      bind (for_fold fields None (fun new_key kv =>
              bind (transform_element fuel' (fst kv) (snd kv)) (fun pairs =>
              for_fold pairs new_key (kernel_body fuel' first_call yield))))
           (fun _ => ret tt))
  end

with format_document (fuel : nat) (document : ref) (first_call : bool)
  {struct fuel} : M ref :=
  match fuel with
  | O => raise RecursionError
  | S fuel' => dict_from (_kernel fuel' first_call document)
  end.

End DefaultDocumentFormatter.

Module DocumentFlattener.

Fixpoint transform_value (fuel : nat) (value : ref) {struct fuel} : M ref :=
  match fuel with
  | O => raise RecursionError
  | S fuel' =>
      bind (isinstance_ref value [dict_t]) (fun is_dict =>
      if is_dict then raise TypeError
      else
        bind (isinstance_ref value [list_t]) (fun is_list =>
        if is_list then
          bind (items_of value) (fun items =>
          bind (comprehension (transform_value fuel') items) (fun items' =>
          bind (alloc (OList items')) (fun l => ret (Ptr l))))
        else transform_scalar value))
  end.

(** [".".join(path)] for the list at [path] *)
Definition join_path (path : loc) : M string :=
  bind (items_of (Ptr path)) (fun items =>
  ret (join "." (map (fun r => match r with Imm v => unicode v | Ptr _ => "" end) items))).

(** The body of [flatten]'s loop for a pair of a field that is not a dict. *)
Definition emit (fuel : nat) (top_level : bool) (path_string : string)
  (yield : string * ref -> M unit) (pair : string * ref) : M unit :=
  let (new_k, new_v) := pair in
  if top_level then
    bind (forValue fuel new_v) (fun ty =>
    bind (lift (DocumentFlattener.bound_method_plus DataType.prefix ty new_k)) (fun new_key =>
    yield (new_key, new_v)))
  else yield (dotted path_string new_k, new_v).

Fixpoint transform_element (fuel : nat) (key : string) (value : ref)
  (yield : string * ref -> M unit) {struct fuel} : M unit :=
  match fuel with
  | O => raise RecursionError
  | S fuel' =>
      bind (isinstance_ref value [list_t]) (fun is_list =>
      if is_list then
        bind (items_of value) (fun items =>
        for_enumerate items 0 (fun li lv =>
          transform_element fuel' (dotted key (str_of_nat li)) lv yield))
      else
        bind (isinstance_ref value [dict_t]) (fun is_dict =>
        if is_dict then
          bind (format_document fuel' value) (fun formatted =>
          bind (fields_of formatted) (fun fields =>
          for_each fields (fun kv => yield (dotted key (fst kv), snd kv))))
        else
          bind (transform_value fuel' value) (fun new_value =>
          yield (key, new_value))))
  end

with flatten (fuel : nat) (doc : ref) (path : loc)
  (yield : string * ref -> M unit) {struct fuel} : M unit :=
  match fuel with
  | O => raise RecursionError
  | S fuel' =>
      bind (items_of (Ptr path)) (fun segments =>
      let top_level := (length segments =? 0)%nat in
      bind (if top_level then ret "" else join_path path) (fun path_string =>
      bind (fields_of doc) (fun fields =>
      for_each fields (fun kv =>
        let (k, v) := kv in
        bind (isinstance_ref v [dict_t]) (fun is_dict =>
        if is_dict then
          bind (list_append path (Imm (VStr k))) (fun _ =>
          bind (flatten fuel' v path yield) (fun _ =>
          list_pop path))
        else
          transform_element fuel' k v
            (emit fuel' top_level path_string yield))))))
  end

with format_document (fuel : nat) (document : ref) {struct fuel} : M ref :=
  match fuel with
  | O => raise RecursionError
  | S fuel' =>
      bind (alloc (OList [])) (fun path =>
      dict_from (flatten fuel' document path))
  end.

End DocumentFlattener.

(** A tree in the store: the reference to it. *)
Fixpoint load (v : pyvalue) : M ref :=
  match v with
  | VList l =>
      bind ((fix go (l : list pyvalue) : M (list ref) :=
               match l with
               | [] => ret []
               | x :: rest =>
                   bind (load x) (fun r =>
                   bind (go rest) (fun rs => ret (r :: rs)))
               end) l) (fun items =>
      bind (alloc (OList items)) (fun l => ret (Ptr l)))
  | VDict d =>
      bind ((fix go (d : dict) : M (list (string * ref)) :=
               match d with
               | [] => ret []
               | (k, x) :: rest =>
                   bind (load x) (fun r =>
                   bind (go rest) (fun rs => ret ((k, r) :: rs)))
               end) d) (fun fields =>
      bind (alloc (ODict fields)) (fun l => ret (Ptr l)))
  | _ => ret (Imm v)
  end.

(** The tree a reference stands for, read back to the given depth. *)
Fixpoint reify (fuel : nat) (h : list obj) (r : ref) : option pyvalue :=
  match fuel with
  | O => None
  | S fuel' =>
      match r with
      | Imm v => Some v
      | Ptr l =>
          match nth_error h l with
          | Some (OList items) =>
              option_map VList
                (fold_right (fun r acc =>
                               match reify fuel' h r, acc with
                               | Some v, Some vs => Some (v :: vs)
                               | _, _ => None
                               end) (Some []) items)
          | Some (ODict fields) =>
              option_map VDict
                (fold_right (fun kr acc =>
                               match reify fuel' h (snd kr), acc with
                               | Some v, Some vs => Some ((fst kr, v) :: vs)
                               | _, _ => None
                               end) (Some []) fields)
          | None => None
          end
      end
  end.

(** No object of [h0] has changed in [s]. *)
Definition unchanged (h0 : list obj) (s : state) : Prop :=
  forall l o, nth_error h0 l = Some o -> nth_error (heap s) l = Some o.

(** [m] changes no object of [h0], from whatever state it is run in. *)
Definition preserves {A} (h0 : list obj) (m : M A) : Prop :=
  forall s, unchanged h0 s -> unchanged h0 (snd (m s)).

(** A reference that [m] returns is to an object that is not in [h0]. *)
Definition returns_new (h0 : list obj) (m : M ref) : Prop :=
  forall s l, unchanged h0 s -> fst (m s) = Ok (Ptr l) -> (length h0 <= l)%nat.

End Store.

(** A run over the store: the document is loaded into an empty store, the
    formatter is run on it, and the mapping it returns and the document
    are read back as trees. *)

Definition run_on_store (format : Store.ref -> Store.M Store.ref) (document : dict)
  : result (option pyvalue * option pyvalue) * list string :=
  match Store.load (VDict document) (Store.mkState [] []) with
  | (Ok r, s1) =>
      match format r s1 with
      | (Ok out, s2) =>
          (Ok (Store.reify 100 (Store.heap s2) out,
               Store.reify 100 (Store.heap s2) r), Store.warnings s2)
      | (Raise e, s2) => (Raise e, Store.warnings s2)
      end
  | (Raise e, s1) => (Raise e, Store.warnings s1)
  end.

Definition mixed_example : dict :=
  [("a", VInt 2);
   ("b", VDict [("x", VFloat nan); ("y", VInt 1)]);
   ("c", VFloat nan);
   ("l", VList [VInt 1; VDict [("z", VNone)]])].

Definition nested_example : dict :=
  [("b", VDict [("c", VDict [("d", VInt 5)]);
                ("e", VList [VInt 6; VInt 7;
                             VDict [("q", VDict [("r", VStr "s")])]])])].

(** The runs of the tree model, in the shape of [run_on_store]. *)

Definition tree_default (first_call : bool) (d : dict)
  : result (option pyvalue * option pyvalue) * list string :=
  match DefaultDocumentFormatter.format_document d first_call with
  | (Ok out, w) => (Ok (Some (VDict out), Some (VDict d)), w)
  | (Raise e, w) => (Raise e, w)
  end.

Definition tree_flatten (d : dict)
  : result (option pyvalue * option pyvalue) * list string :=
  match DocumentFlattener.format_document d with
  | Ok out => (Ok (Some (VDict out), Some (VDict d)), [])
  | Raise e => (Raise e, [])
  end.

(** A family of small documents: every dict of at most two fields, named
    ["a"] and ["long_b"], over scalars, short lists and small dicts. *)

Definition dicts_over (k1 k2 : string) (values : list pyvalue) : list dict :=
  ([] :: map (fun v => [(k1, v)]) values
      ++ map (fun v => [(k2, v)]) values
      ++ flat_map (fun v1 => map (fun v2 => [(k1, v1); (k2, v2)]) values) values
      ++ flat_map (fun v1 => map (fun v2 => [(k2, v1); (k1, v2)]) values) values)%list.

Definition lists_over (values : list pyvalue) : list pyvalue :=
  (VList [] :: map (fun v => VList [v]) values
     ++ flat_map (fun v1 => map (fun v2 => VList [v1; v2]) values) values)%list.

Definition sample_values : list pyvalue :=
  ([VNone; VBool true; VInt 1; VFloat nan; VStr "s"]
     ++ lists_over [VInt 1; VFloat nan; VDict [("x", VInt 1)];
                    VDict [("x", VDict [("y", VFloat nan)])]]
     ++ map VDict (dicts_over "c" "string_d"
                     [VStr "s"; VFloat nan; VList [VInt 1];
                      VDict [("lat", VInt 1); ("lon", VInt 1)]]))%list.

Definition sample_documents : list dict := dicts_over "a" "long_b" sample_values.

(** * Properties *)

(** ** Sample runs *)

Example b64_AAE : b64encode [Byte.x00; Byte.x01] = "AAE=".
Proof. reflexivity. Qed.

Example regex_im :
  transform_leaf (VRegex "ab+c" (Z.lor re_IGNORECASE re_MULTILINE))
  = Ok (VStr "/ab+c/im").
Proof. reflexivity. Qed.

Example default_plain :
  DefaultDocumentFormatter.format_document
    [("a", VInt 2); ("s", VStr "x"); ("f", VFloat float_1)] true
  = (Ok [("long_a", VInt 2); ("string_s", VStr "x"); ("double_f", VFloat float_1)], []).
Proof. reflexivity. Qed.

Example default_nested_nan :
  DefaultDocumentFormatter.format_document
    [("a", VInt 2); ("b", VDict [("x", VFloat nan); ("y", VInt 1)]); ("c", VFloat nan)] true
  = (Ok [("long_a", VInt 2); ("object_b", VDict [("y", VInt 1)])],
     ["Invalid value for key: x as nan"; "Invalid value for key: c as nan"]).
Proof. reflexivity. Qed.

Example flatten_nested_only :
  DocumentFlattener.format_document
    [("b", VDict [("c", VDict [("d", VInt 5)]); ("e", VList [VInt 6; VInt 7])])]
  = Ok [("b.c.d", VInt 5); ("b.e.0", VInt 6); ("b.e.1", VInt 7)].
Proof. reflexivity. Qed.

Example default_mixed :
  DefaultDocumentFormatter.format_document mixed_example true
  = (Ok [("long_a", VInt 2); ("object_b", VDict [("y", VInt 1)]);
         ("long_l", VList [VInt 1; VDict [("z", VNone)]])],
     ["Invalid value for key: x as nan"; "Invalid value for key: c as nan"]).
Proof. reflexivity. Qed.

Example flatten_nested :
  DocumentFlattener.format_document nested_example
  = Ok [("b.c.d", VInt 5); ("b.e.0", VInt 6); ("b.e.1", VInt 7);
        ("b.e.2.q.r", VStr "s")].
Proof. reflexivity. Qed.

(** The store model gives the same results, and the document reads back
    as it was loaded. *)
Example store_default_mixed :
  run_on_store
    (fun r => Store.DefaultDocumentFormatter.format_document 50 r true)
    mixed_example
  = (Ok (Some (VDict [("long_a", VInt 2); ("object_b", VDict [("y", VInt 1)]);
                      ("long_l", VList [VInt 1; VDict [("z", VNone)]])]),
         Some (VDict mixed_example)),
     ["Invalid value for key: x as nan"; "Invalid value for key: c as nan"]).
Proof. vm_compute. reflexivity. Qed.

Example store_default_stale_key :
  run_on_store
    (fun r => Store.DefaultDocumentFormatter.format_document 50 r true)
    [("a", VInt 1); ("long_b", VInt 2)]
  = (Ok (Some (VDict [("long_a", VInt 2)]),
         Some (VDict [("a", VInt 1); ("long_b", VInt 2)])), []).
Proof. vm_compute. reflexivity. Qed.

Example store_flatten_nested :
  run_on_store (Store.DocumentFlattener.format_document 50) nested_example
  = (Ok (Some (VDict [("b.c.d", VInt 5); ("b.e.0", VInt 6); ("b.e.1", VInt 7);
                      ("b.e.2.q.r", VStr "s")]),
         Some (VDict nested_example)), []).
Proof. vm_compute. reflexivity. Qed.

Example store_flatten_spec_example :
  run_on_store (Store.DocumentFlattener.format_document 50) spec_example
  = (Raise TypeError, []).
Proof. vm_compute. reflexivity. Qed.

Example store_flatten_nan :
  run_on_store (Store.DocumentFlattener.format_document 50)
    [("b", VDict [("c", VFloat nan); ("d", VInt 1)])]
  = (Raise (ValueError "nan"), []).
Proof. vm_compute. reflexivity. Qed.

(** On each of the 9113 documents of [sample_documents] the two models
    agree on the mapping returned or the exception raised and on the
    warnings logged, and the document in the store reads back unchanged. *)
Example store_agrees_default :
  map (run_on_store
         (fun r => Store.DefaultDocumentFormatter.format_document 50 r true))
      sample_documents
  = map (tree_default true) sample_documents.
Proof. vm_compute. reflexivity. Qed.

Example store_agrees_flatten :
  map (run_on_store (Store.DocumentFlattener.format_document 50))
      sample_documents
  = map tree_flatten sample_documents.
Proof. vm_compute. reflexivity. Qed.

Example flatten_empty_structures :
  DocumentFlattener.format_document [("a", VDict []); ("b", VList [])] = Ok [].
Proof. reflexivity. Qed.

(** ** Induction on values

    The generated principle says nothing about the values inside a list or
    a dict; this one does. *)

Section PyvalueInd.

Variable P : pyvalue -> Prop.
Hypothesis HNone : P VNone.
Hypothesis HBool : forall b, P (VBool b).
Hypothesis HInt : forall n, P (VInt n).
Hypothesis HFloat : forall f, P (VFloat f).
Hypothesis HStr : forall s, P (VStr s).
Hypothesis HDatetime : forall t, P (VDatetime t).
Hypothesis HRegex : forall p f, P (VRegex p f).
Hypothesis HBytes : forall d, P (VBytes d).
Hypothesis HBinary : forall d st, P (VBinary d st).
Hypothesis HUUID : forall n, P (VUUID n).
Hypothesis HOther : forall c s, P (VOther c s).
Hypothesis HList : forall l, Forall P l -> P (VList l).
Hypothesis HDict : forall d, Forall (fun kv => P (snd kv)) d -> P (VDict d).

Fixpoint pyvalue_nested_ind (v : pyvalue) : P v :=
  match v with
  | VNone => HNone
  | VBool b => HBool b
  | VInt n => HInt n
  | VFloat f => HFloat f
  | VStr s => HStr s
  | VDatetime t => HDatetime t
  | VRegex p f => HRegex p f
  | VBytes d => HBytes d
  | VBinary d st => HBinary d st
  | VUUID n => HUUID n
  | VOther c s => HOther c s
  | VList l =>
      HList ((fix go (l : list pyvalue) : Forall P l :=
                match l with
                | [] => Forall_nil _
                | x :: r => Forall_cons _ (pyvalue_nested_ind x) (go r)
                end) l)
  | VDict d =>
      HDict ((fix go (d : dict) : Forall (fun kv => P (snd kv)) d :=
                match d with
                | [] => Forall_nil _
                | kv :: r =>
                    Forall_cons (P := fun kv => P (snd kv)) kv
                      (pyvalue_nested_ind (snd kv)) (go r)
                end) d)
  end.

End PyvalueInd.

(** ** The classifier *)

Lemma startswith_empty (key : string) : startswith key "" = true.
Proof. destruct key; reflexivity. Qed.

Lemma forValue_returns (value : pyvalue) :
  exists t, DataType.forValue value = Ok t.
Proof.
  induction value using pyvalue_nested_ind;
    try (eexists; reflexivity).
  - destruct l as [|first rest].
    + exists DataType.UNKNOWN. reflexivity.
    + inversion H as [|? ? [t Ht] _]; subst.
      exists t. simpl. simpl in Ht. rewrite Ht. reflexivity.
Qed.

Lemma forValue_first (first : pyvalue) (rest : list pyvalue) :
  DataType.forValue (VList (first :: rest)) = DataType.forValue first.
Proof.
  destruct (forValue_returns first) as [t Ht].
  change (DataType.forValue (VList (first :: rest)))
    with (try_except (DataType.forValue first) (fun _ => Ok DataType.UNKNOWN)).
  rewrite Ht. reflexivity.
Qed.

(** C6: [DataType.forValue] returns a tag for every value and never raises;
    an empty list is [UNKNOWN], a non-empty list has the tag of its first
    element, and a value that is neither a dict nor a list and whose class
    is not a key of the table is [UNKNOWN]. *)
Theorem forValue_total (value : pyvalue) :
  (exists t, DataType.forValue value = Ok t)
  /\ DataType.forValue (VList []) = Ok DataType.UNKNOWN
  /\ (forall rest, DataType.forValue (VList (value :: rest)) = DataType.forValue value)
  /\ (isinstance value [dict_t; list_t] = false ->
      DataType.type_table (type_of value) = Raise KeyError ->
      DataType.forValue value = Ok DataType.UNKNOWN).
Proof.
  split; [apply forValue_returns|].
  split; [reflexivity|].
  split; [intro rest; apply forValue_first|].
  intros Hc Ht.
  destruct value; simpl in *; try discriminate; reflexivity.
Qed.

Lemma forValue_total_witness :
  (exists t, DataType.forValue (VUUID 7) = Ok t)
  /\ DataType.forValue (VList [VUUID 7; VInt 1]) = DataType.forValue (VUUID 7)
  /\ DataType.forValue (VUUID 7) = Ok DataType.UNKNOWN.
Proof.
  destruct (forValue_total (VUUID 7)) as [H1 [_ [H3 H4]]].
  split; [exact H1|].
  split; [exact (H3 [VInt 1])|].
  apply H4; reflexivity.
Defined.

(** C8: a dict is classified [GEOPOINT] exactly when its keys are ["lat"]
    and ["lon"], in either order and whatever the values, and [DICT]
    otherwise. *)
Theorem forValue_geopoint (d : dict) :
  (DataType.forValue (VDict d) = Ok DataType.GEOPOINT
   <-> Permutation (keys d) ["lat"; "lon"])
  /\ (DataType.forValue (VDict d) = Ok DataType.DICT
      <-> ~ Permutation (keys d) ["lat"; "lon"])
  /\ DataType.forValue
       (VDict [("lat", VFloat float_1); ("lon", VFloat float_1)])
     = Ok DataType.GEOPOINT
  /\ DataType.forValue
       (VDict [("lat", VFloat float_1); ("lon", VFloat float_1);
               ("alt", VFloat float_1)])
     = Ok DataType.DICT.
Proof.
  assert (Hgeo : DataType.isGeoPoint d = true <-> Permutation (keys d) ["lat"; "lon"]).
  { unfold DataType.isGeoPoint, contains. split.
    - intro H. apply andb_prop in H. destruct H as [H Hlon].
      apply andb_prop in H. destruct H as [Hlen Hlat].
      apply Nat.eqb_eq in Hlen.
      destruct (keys d) as [|k1 [|k2 [|k3 ks]]]; try discriminate.
      apply existsb_exists in Hlat. destruct Hlat as [x [Hx Ex]].
      apply String.eqb_eq in Ex. subst x.
      apply existsb_exists in Hlon. destruct Hlon as [y [Hy Ey]].
      apply String.eqb_eq in Ey. subst y.
      destruct Hx as [Hx|[Hx|[]]]; destruct Hy as [Hy|[Hy|[]]]; subst;
        try discriminate.
      * apply Permutation_refl.
      * apply perm_swap.
    - intro Hp.
      assert (Hl : length (keys d) = 2%nat) by (apply Permutation_length in Hp; exact Hp).
      rewrite Hl. simpl.
      assert (In "lat" (keys d)) by (eapply Permutation_in; [apply Permutation_sym; exact Hp | simpl; auto]).
      assert (In "lon" (keys d)) by (eapply Permutation_in; [apply Permutation_sym; exact Hp | simpl; auto]).
      apply andb_true_intro. split.
      + apply existsb_exists. exists "lat". split; [assumption | reflexivity].
      + apply existsb_exists. exists "lon". split; [assumption | reflexivity]. }
  simpl. unfold DataType.typeForDictValue.
  split; [|split; [|split; reflexivity]].
  - rewrite <- Hgeo. destruct (DataType.isGeoPoint d); split; intro H;
      try reflexivity; try discriminate.
  - rewrite <- Hgeo. destruct (DataType.isGeoPoint d); split; intro H;
      try reflexivity; try discriminate;
      solve [exfalso; apply H; reflexivity | intro; discriminate].
Qed.

(** ** Names and prefixes *)

(** [fromStr] is keyed by the names of the tags: a string that it maps to
    a tag other than [UNKNOWN] is that tag's name. *)
Lemma fromStr_name (typeStr : string) (t : DataType.t) :
  DataType.fromStr typeStr = t -> t <> DataType.UNKNOWN ->
  typeStr = DataType.to_str t.
Proof.
  unfold DataType.fromStr. intros H Hu.
  repeat match type of H with
         | (if String.eqb ?a ?b then _ else _) = _ =>
             destruct (String.eqb_spec a b) as [E|_];
             [subst t; exact E|]
         end.
  congruence.
Qed.

(** C5, as the code has it: [fromStr] inverts the name of a tag, not its
    prefix; the prefix of a tag other than [UNKNOWN] is its name followed
    by an underscore, which [fromStr] does not know and sends to
    [UNKNOWN]. *)
Theorem fromStr_to_str (t : DataType.t) :
  DataType.fromStr (DataType.to_str t) = t
  /\ DataType.prefix t
     = (if DataType.eqb t DataType.UNKNOWN then "" else DataType.to_str t ++ "_")
  /\ DataType.fromStr (DataType.prefix t) = DataType.UNKNOWN.
Proof. destruct t; repeat split; reflexivity. Qed.

(** C5, as the claim states it, fails: the prefix of [BOOL] does not map
    back to [BOOL]. *)
Lemma fromStr_prefix_not_inverse :
  ~ (forall t, DataType.fromStr (DataType.prefix t) = t).
Proof. intro H. specialize (H DataType.BOOL). discriminate H. Qed.

(** C7: stripping the prefix of a tag other than [UNKNOWN] from a key built
    with it gives the bare key back, and a key that starts with none of the
    non-empty prefixes is returned as it is. *)
Theorem attributeNameFromKey_prefix (t : DataType.t) (name key : string) :
  t <> DataType.UNKNOWN ->
  DataType.attributeNameFromKey (DataType.prefix t ++ name) = name
  /\ ((forall t', t' <> DataType.UNKNOWN ->
                  startswith key (DataType.prefix t') = false) ->
      DataType.attributeNameFromKey key = key).
Proof.
  intro Ht. split.
  - destruct t; try contradiction; destruct name; reflexivity.
  - intro H. unfold DataType.attributeNameFromKey, DataType.members.
    simpl DataType.attributeNameFrom.
    rewrite !H by discriminate.
    rewrite startswith_empty. reflexivity.
Qed.

Lemma attributeNameFromKey_prefix_witness :
  DataType.attributeNameFromKey (DataType.prefix DataType.DATETIME ++ "name") = "name"
  /\ DataType.attributeNameFromKey "count" = "count".
Proof.
  destruct (attributeNameFromKey_prefix (t := DataType.DATETIME) "name" "count")
    as [H1 H2].
  - discriminate.
  - split; [exact H1|]. apply H2.
    intros t' Ht'. destruct t'; try reflexivity. contradiction.
Defined.

(** ** The value normaliser *)

(** C9: a boolean is an instance of [int], takes the numeric branch, is
    neither NaN nor infinite, and comes back unchanged. *)
Theorem transform_value_bool (b : bool) :
  isinstance (VBool b) [int_t; int_t; float_t] = true
  /\ transform_leaf (VBool b) = Ok (VBool b)
  /\ DefaultDocumentFormatter.transform_value (VBool b) = (Ok (VBool b), [])
  /\ DocumentFlattener.transform_value (VBool b) = Ok (VBool b).
Proof. destruct b; repeat split; reflexivity. Qed.

(** ** Defects *)

(** C1: on the example of the class comment the flattener raises
    [TypeError] at the first root-level field. *)
Theorem flatten_spec_example_raises :
  DocumentFlattener.format_document spec_example = Raise TypeError.
Proof. reflexivity. Qed.

(** C2: in the flattener a NaN below the root is not dropped: the
    [ValueError] leaves [format_document]. *)
Theorem flatten_nan_propagates :
  DocumentFlattener.format_document
    [("b", VDict [("c", VFloat nan); ("d", VInt 1)])]
  = Raise (ValueError "nan").
Proof. reflexivity. Qed.

(** C3: a key that already starts with the prefix of its value leaves
    [new_key] unassigned: the first such pair raises [UnboundLocalError],
    a later one is emitted under the key of the pair before it. *)
Theorem kernel_prefixed_key_unassigned :
  DefaultDocumentFormatter.format_document [("long_a", VInt 1)] true
  = (Raise UnboundLocalError, [])
  /\ DefaultDocumentFormatter.format_document [("a", VNone)] true
     = (Raise UnboundLocalError, [])
  /\ DefaultDocumentFormatter.format_document
       [("a", VInt 1); ("long_b", VInt 2)] true
     = (Ok [("long_a", VInt 2)], []).
Proof. repeat split. Qed.

(** ** Generators and dictionaries: where an item comes from *)

Lemma in_gen_seq {A} (g1 g2 : gen A) (a : A) :
  In a (fst (gen_seq g1 g2)) -> In a (fst g1) \/ In a (fst g2).
Proof.
  destruct g1 as [xs [e|]], g2 as [ys e2]; simpl; intro H; auto.
  apply in_app_or in H. exact H.
Qed.

Lemma in_for_items {A B} (items : list A) (body : A -> gen B) (b : B) :
  In b (fst (for_items items body)) ->
  exists a, In a items /\ In b (fst (body a)).
Proof.
  induction items as [|x rest IH]; simpl; intro H.
  - contradiction.
  - apply in_gen_seq in H. destruct H as [H|H].
    + exists x. auto.
    + destruct (IH H) as [a [Ha Hb]]. exists a. auto.
Qed.

Lemma in_gen_for {A B} (g : gen A) (body : A -> gen B) (b : B) :
  In b (fst (gen_for g body)) ->
  exists a, In a (fst g) /\ In b (fst (body a)).
Proof.
  unfold gen_for. intro H. apply in_gen_seq in H. destruct H as [H|H].
  - apply in_for_items. exact H.
  - destruct (snd g); simpl in H; contradiction.
Qed.

Lemma in_setitem (d : dict) (k k' : string) (v v' : pyvalue) :
  In (k, v) (setitem d k' v') -> (k, v) = (k', v') \/ In (k, v) d.
Proof.
  induction d as [|[k0 v0] rest IH]; simpl.
  - intros [H|[]]. left. symmetry. exact H.
  - destruct (String.eqb_spec k' k0) as [E|N]; simpl.
    + intros [H|H]; [left; congruence | right; right; exact H].
    + intros [H|H]; [right; left; exact H|].
      destruct (IH H) as [H'|H']; auto.
Qed.

Lemma in_dict_of (pairs : list (string * pyvalue)) (k : string) (v : pyvalue) :
  In (k, v) (dict_of pairs) -> In (k, v) pairs.
Proof.
  unfold dict_of.
  assert (G : forall acc, In (k, v)
                (fold_left (fun d kv => setitem d (fst kv) (snd kv)) pairs acc) ->
              In (k, v) acc \/ In (k, v) pairs).
  { induction pairs as [|[k' v'] rest IH]; simpl; intros acc H.
    - left. exact H.
    - destruct (IH _ H) as [H'|H'].
      + apply in_setitem in H'. destruct H' as [H'|H']; auto.
      + auto. }
  intro H. destruct (G [] H) as [[]|H']. exact H'.
Qed.

(** ** Keys of the flattener *)

Lemma join_cons (sep p : string) (rest : list string) :
  rest <> [] -> join sep (p :: rest) = p ++ sep ++ join sep rest.
Proof. destruct rest; [congruence | reflexivity]. Qed.

Lemma string_app_assoc (a b c : string) : (a ++ b) ++ c = a ++ (b ++ c).
Proof. induction a; simpl; congruence. Qed.

Lemma join_dotted (a b : string) (segs : list string) :
  join "." (dotted a b :: segs) = join "." (a :: b :: segs).
Proof.
  unfold dotted. destruct segs as [|s rest].
  - reflexivity.
  - rewrite (@join_cons "." (a ++ "." ++ b)) by discriminate.
    rewrite (@join_cons "." a) by discriminate.
    rewrite (@join_cons "." b) by discriminate.
    rewrite !string_app_assoc. reflexivity.
Qed.

Lemma join_app (path segs : list string) :
  path <> [] -> segs <> [] ->
  join "." (path ++ segs) = dotted (join "." path) (join "." segs).
Proof.
  unfold dotted.
  induction path as [|p rest IH]; [congruence|].
  intros _ Hs. destruct rest as [|q rest'].
  - simpl app. apply join_cons. exact Hs.
  - change ((p :: q :: rest') ++ segs)%list with (p :: ((q :: rest') ++ segs))%list.
    rewrite join_cons by discriminate.
    rewrite IH by (discriminate || exact Hs).
    rewrite (@join_cons "." p (q :: rest')) by discriminate.
    rewrite !string_app_assoc. reflexivity.
Qed.

Lemma emit_yields (top_level : bool) (path_string : string)
  (pair kx : string * pyvalue) :
  In kx (fst (DocumentFlattener.emit top_level path_string pair)) ->
  top_level = false /\ kx = (dotted path_string (fst pair), snd pair).
Proof.
  destruct pair as [new_k new_v]. unfold DocumentFlattener.emit.
  destruct top_level.
  - destruct (forValue_returns new_v) as [t Ht]. rewrite Ht. simpl.
    contradiction.
  - simpl. intros [H|[]]. auto.
Qed.

Lemma flatten_with_cons flatten te (path : list string) (k : string)
  (v : pyvalue) (rest : dict) :
  DocumentFlattener.flatten_with flatten te path ((k, v) :: rest)
  = gen_seq
      (if isinstance v [dict_t]
       then flatten v (path ++ [k])%list
       else gen_for (te k v)
              (DocumentFlattener.emit (length path =? 0)%nat (join "." path)))
      (DocumentFlattener.flatten_with flatten te path rest).
Proof. reflexivity. Qed.

Lemma enumerate_with_cons te (key : string) (lv : pyvalue)
  (rest : list pyvalue) (li : nat) :
  DocumentFlattener.enumerate_with te key (lv :: rest) li
  = gen_seq (te (dotted key (str_of_nat li)) lv)
            (DocumentFlattener.enumerate_with te key rest (S li)).
Proof. reflexivity. Qed.

Lemma flatten_with_fields (d : dict) :
  (forall kv, In kv d -> flat_ok (snd kv) /\ elem_ok (snd kv)) ->
  forall path k x,
    In (k, x) (fst (DocumentFlattener.flatten_with
                      DocumentFlattener.flatten_value
                      DocumentFlattener.transform_element path d)) ->
    exists k0 v0 segs,
      In (k0, v0) d /\ leaf_at v0 segs x /\ k = join "." (path ++ k0 :: segs).
Proof.
  induction d as [|[k0 v] rest IH]; intros Hd path k x H.
  - contradiction.
  - rewrite flatten_with_cons in H. apply in_gen_seq in H. destruct H as [H|H].
    + destruct (Hd (k0, v) (or_introl eq_refl)) as [Hf He]. simpl in Hf, He.
      destruct (isinstance v [dict_t]).
      * destruct (Hf _ _ _ H) as [segs [_ [Hl Hk]]].
        exists k0, v, segs. split; [left; reflexivity|]. split; [exact Hl|].
        rewrite Hk, <- app_assoc. reflexivity.
      * apply in_gen_for in H. destruct H as [pair [Hp Hy]].
        apply emit_yields in Hy. destruct Hy as [Htop Hkx].
        destruct pair as [new_k new_v]. simpl in Hkx.
        injection Hkx as -> ->.
        destruct (He _ _ _ Hp) as [segs [Hl Hk]].
        exists k0, v, segs. split; [left; reflexivity|]. split; [exact Hl|].
        rewrite Hk. symmetry. apply join_app; [|discriminate].
        intro E. rewrite E in Htop. discriminate.
    + destruct (IH (fun kv Hin => Hd kv (or_intror Hin)) path k x H)
        as [k1 [v1 [segs [Hin [Hl Hk]]]]].
      exists k1, v1, segs. split; [right; exact Hin | auto].
Qed.

Lemma enumerate_with_items (key : string) (l : list pyvalue) :
  forall li k x,
    In (k, x) (fst (DocumentFlattener.enumerate_with
                      DocumentFlattener.transform_element key l li)) ->
    exists j v,
      nth_error l j = Some v
      /\ In (k, x) (fst (DocumentFlattener.transform_element
                           (dotted key (str_of_nat (li + j))) v)).
Proof.
  induction l as [|lv rest IH]; intros li k x H.
  - contradiction.
  - rewrite enumerate_with_cons in H. apply in_gen_seq in H. destruct H as [H|H].
    + exists 0%nat, lv. rewrite Nat.add_0_r. auto.
    + destruct (IH _ _ _ H) as [j [v [Hn Hin]]].
      exists (S j), v. rewrite Nat.add_succ_r. auto.
Qed.

Lemma flatten_value_leaf (v : pyvalue) (path : list string) :
  isinstance v [dict_t] = false ->
  DocumentFlattener.flatten_value v path = gen_raise TypeError.
Proof. destruct v; try discriminate; reflexivity. Qed.

Lemma transform_element_leaf (key : string) (v : pyvalue) :
  isinstance v [dict_t; list_t] = false ->
  DocumentFlattener.transform_element key v
  = match transform_leaf v with
    | Ok new_value => gen_yield (key, new_value)
    | Raise e => gen_raise e
    end.
Proof. destruct v; try discriminate; reflexivity. Qed.

Lemma leaf_keys_ok (v : pyvalue) :
  isinstance v [dict_t; list_t] = false -> flat_ok v /\ elem_ok v.
Proof.
  intro Hv. split.
  - intros path k x H. rewrite flatten_value_leaf in H.
    + contradiction.
    + destruct v; try discriminate; reflexivity.
  - intros key k x H. rewrite transform_element_leaf in H by exact Hv.
    destruct (transform_leaf v) as [new_value|e] eqn:E.
    + destruct H as [H|[]]. injection H as <- <-.
      exists []. split; [apply leaf_here; assumption | reflexivity].
    + contradiction.
Qed.

Lemma flatten_keys_ok (v : pyvalue) : flat_ok v /\ elem_ok v.
Proof.
  induction v using pyvalue_nested_ind;
    try (apply leaf_keys_ok; reflexivity).
  - (* list *)
    split; [intros path k x H0; contradiction|].
    intros key k x H0. simpl in H0.
    apply enumerate_with_items in H0. destruct H0 as [j [v [Hn Hin]]].
    rewrite Forall_forall in H.
    destruct (H v (nth_error_In _ _ Hn)) as [_ He].
    destruct (He _ _ _ Hin) as [segs [Hl Hk]].
    exists (str_of_nat j :: segs). split.
    + apply leaf_item with (v := v); assumption.
    + rewrite Hk. apply join_dotted.
  - (* dict *)
    rewrite Forall_forall in H.
    split.
    + intros path k x H0. simpl in H0.
      destruct (flatten_with_fields d H _ _ _ H0) as [k0 [v0 [segs [Hin [Hl Hk]]]]].
      exists (k0 :: segs). split; [discriminate|]. split; [|exact Hk].
      apply leaf_field with (v := v0); assumption.
    + intros key k x H0. simpl in H0.
      destruct (DocumentFlattener.flatten_with _ _ [] d) as [pairs [e|]] eqn:E;
        simpl in H0; [contradiction|].
      apply in_map_iff in H0. destruct H0 as [[dk x'] [Hkx Hin]].
      simpl in Hkx. injection Hkx as <- <-.
      apply in_dict_of in Hin.
      assert (Hin' : In (dk, x') (fst (DocumentFlattener.flatten_with
                                        DocumentFlattener.flatten_value
                                        DocumentFlattener.transform_element [] d)))
        by (rewrite E; exact Hin).
      destruct (flatten_with_fields d H _ _ _ Hin') as [k0 [v0 [segs [Hi [Hl Hk]]]]].
      exists (k0 :: segs). split.
      * apply leaf_field with (v := v0); assumption.
      * rewrite Hk. simpl app. symmetry. apply join_cons. discriminate.
Qed.



(** Every entry of a mapping the flattener returns lies below the root of
    the document and is keyed by the dot-joined path to its leaf. *)
Corollary format_document_keys (document out : dict) (k : string) (x : pyvalue) :
  DocumentFlattener.format_document document = Ok out ->
  In (k, x) out ->
  exists segs,
    (2 <= length segs)%nat /\ leaf_at (VDict document) segs x /\ k = join "." segs.
Proof.
  unfold DocumentFlattener.format_document, DocumentFlattener.flatten.
  intros Hf Hin.
  destruct (DocumentFlattener.flatten_with _ _ [] document) as [pairs [e|]] eqn:E;
    simpl in Hf; [discriminate|].
  injection Hf as <-. apply in_dict_of in Hin.
  assert (Hall : forall kv, In kv document -> flat_ok (snd kv) /\ elem_ok (snd kv))
    by (intros; apply flatten_keys_ok).
  assert (Hin' : In (k, x) (fst (DocumentFlattener.flatten_with
                                   DocumentFlattener.flatten_value
                                   DocumentFlattener.transform_element [] document)))
    by (rewrite E; exact Hin).
  clear E Hin. revert Hin'.
  induction document as [|[k0 v] rest IH]; intro H; [contradiction|].
  rewrite flatten_with_cons in H. apply in_gen_seq in H. destruct H as [H|H].
  - destruct (isinstance v [dict_t]) eqn:Ev.
    + destruct (flatten_keys_ok v) as [Hfv _].
      destruct (Hfv _ _ _ H) as [segs [Hne [Hl Hk]]].
      exists (k0 :: segs). split; [|split].
      * destruct segs; [congruence | simpl; lia].
      * apply leaf_field with (v := v); [left; reflexivity | exact Hl].
      * exact Hk.
    + apply in_gen_for in H. destruct H as [pair [_ Hy]].
      apply emit_yields in Hy. destruct Hy as [Htop _]. discriminate.
  - destruct IH as [segs [Hlen [Hl Hk]]].
    + intros kv Hkv. apply flatten_keys_ok.
    + exact H.
    + exists segs. split; [exact Hlen|]. split; [|exact Hk].
      inversion Hl; subst.
      * apply leaf_field with (v := v0); [right; assumption | assumption].
      * simpl in Hlen. lia.
Qed.

(** ** The store: what a call leaves unchanged *)

Section Frame.

Import Store.

Variable h0 : list obj.

Lemma unchanged_length (s : state) :
  unchanged h0 s -> (length h0 <= length (heap s))%nat.
Proof.
  intro Hs. destruct (Nat.le_gt_cases (length h0) (length (heap s))) as [H|H];
    [exact H|].
  destruct (nth_error h0 (length (heap s))) as [o|] eqn:E.
  - apply Hs in E.
    assert (N : nth_error (heap s) (length (heap s)) = None)
      by (apply nth_error_None; lia).
    congruence.
  - apply nth_error_None in E. lia.
Qed.

Lemma update_other (h : list obj) (l l' : loc) (o : obj) :
  l' <> l -> nth_error (update h l o) l' = nth_error h l'.
Proof.
  revert l l'. induction h as [|x rest IH]; intros l l' Hne.
  - reflexivity.
  - destruct l as [|l], l' as [|l']; simpl; try reflexivity.
    + congruence.
    + apply IH. congruence.
Qed.

Lemma preserves_read {A} (m : M A) :
  (forall s, snd (m s) = s) -> preserves h0 m.
Proof. intros H s Hs. rewrite H. exact Hs. Qed.

Lemma preserves_ret {A} (a : A) : preserves h0 (ret a).
Proof. apply preserves_read. reflexivity. Qed.

Lemma preserves_raise {A} (e : exn) : preserves h0 (@raise A e).
Proof. apply preserves_read. reflexivity. Qed.

Lemma preserves_lift {A} (r : result A) : preserves h0 (lift r).
Proof. apply preserves_read. reflexivity. Qed.

Lemma preserves_deref (l : loc) : preserves h0 (deref l).
Proof.
  apply preserves_read. intro s. unfold deref.
  destruct (nth_error (heap s) l); reflexivity.
Qed.

Lemma preserves_warn (msg : string) : preserves h0 (LOG_warn msg).
Proof. intros s Hs. exact Hs. Qed.

Lemma preserves_bind {A B} (m : M A) (f : A -> M B) :
  preserves h0 m -> (forall a, preserves h0 (f a)) -> preserves h0 (bind m f).
Proof.
  intros Hm Hf s Hs. unfold bind. specialize (Hm s Hs).
  destruct (m s) as [[a|e] s']; simpl in *.
  - apply Hf. exact Hm.
  - exact Hm.
Qed.

Lemma preserves_catch {A} (m : M A) (handler : exn -> M A) :
  preserves h0 m -> (forall e, preserves h0 (handler e)) ->
  preserves h0 (catch m handler).
Proof.
  intros Hm Hh s Hs. unfold catch. specialize (Hm s Hs).
  destruct (m s) as [[a|e] s']; simpl in *.
  - exact Hm.
  - apply Hh. exact Hm.
Qed.

Lemma preserves_attempt {A} (m : M A) :
  preserves h0 m -> preserves h0 (attempt m).
Proof.
  intros Hm s Hs. unfold attempt. specialize (Hm s Hs).
  destruct (m s) as [r s']. exact Hm.
Qed.

(** An allocation extends the store; the new location is not one of [h0]. *)
Lemma preserves_alloc {A} (o : obj) (f : loc -> M A) :
  (forall l, (length h0 <= l)%nat -> preserves h0 (f l)) ->
  preserves h0 (bind (alloc o) f).
Proof.
  intros Hf s Hs. unfold bind, alloc.
  apply Hf.
  - apply unchanged_length. exact Hs.
  - intros l o' H. simpl. rewrite nth_error_app1.
    + apply Hs. exact H.
    + apply Hs in H. apply nth_error_Some. congruence.
Qed.

(** A write is harmless when it goes to a location that is not one of [h0]. *)
Lemma preserves_write (l : loc) (o : obj) :
  (length h0 <= l)%nat -> preserves h0 (write l o).
Proof.
  intros Hl s Hs l' o' H. simpl. rewrite update_other.
  - apply Hs. exact H.
  - assert (l' < length h0)%nat by (apply nth_error_Some; congruence). lia.
Qed.

Lemma preserves_fields_of (document : ref) : preserves h0 (fields_of document).
Proof.
  destruct document; simpl; [apply preserves_raise|].
  apply preserves_bind; [apply preserves_deref|].
  intros []; [apply preserves_raise | apply preserves_ret].
Qed.

Lemma preserves_items_of (value : ref) : preserves h0 (items_of value).
Proof.
  destruct value; simpl; [apply preserves_raise|].
  apply preserves_bind; [apply preserves_deref|].
  intros []; [apply preserves_ret | apply preserves_raise].
Qed.

Lemma preserves_type_of_ref (value : ref) : preserves h0 (type_of_ref value).
Proof.
  destruct value; simpl; [apply preserves_ret|].
  apply preserves_bind; [apply preserves_deref|].
  intros []; apply preserves_ret.
Qed.

Lemma preserves_isinstance_ref (value : ref) (classes : list pytype) :
  preserves h0 (isinstance_ref value classes).
Proof.
  apply preserves_bind; [apply preserves_type_of_ref|].
  intro c. apply preserves_ret.
Qed.

Lemma preserves_dict_setitem (l : loc) (k : string) (v : ref) :
  (length h0 <= l)%nat -> preserves h0 (dict_setitem l k v).
Proof.
  intro Hl. apply preserves_bind; [apply preserves_fields_of|].
  intro d. apply preserves_write. exact Hl.
Qed.

Lemma preserves_list_append (l : loc) (x : ref) :
  (length h0 <= l)%nat -> preserves h0 (list_append l x).
Proof.
  intro Hl. apply preserves_bind; [apply preserves_items_of|].
  intro items. apply preserves_write. exact Hl.
Qed.

Lemma preserves_list_pop (l : loc) :
  (length h0 <= l)%nat -> preserves h0 (list_pop l).
Proof.
  intro Hl. apply preserves_bind; [apply preserves_items_of|].
  intros [|x items]; [apply preserves_raise | apply preserves_write; exact Hl].
Qed.

Lemma preserves_for_each {A} (items : list A) (body : A -> M unit) :
  (forall x, preserves h0 (body x)) -> preserves h0 (for_each items body).
Proof.
  intro Hb. induction items as [|x rest IH]; simpl.
  - apply preserves_ret.
  - apply preserves_bind; [apply Hb | intros _; exact IH].
Qed.

Lemma preserves_for_fold {A S} (items : list A) (body : S -> A -> M S) :
  (forall acc x, preserves h0 (body acc x)) ->
  forall acc, preserves h0 (for_fold items acc body).
Proof.
  intro Hb. induction items as [|x rest IH]; intro acc; simpl.
  - apply preserves_ret.
  - apply preserves_bind; [apply Hb | intro acc'; apply IH].
Qed.

Lemma preserves_for_enumerate (items : list ref) (body : nat -> ref -> M unit) :
  (forall li lv, preserves h0 (body li lv)) ->
  forall li, preserves h0 (for_enumerate items li body).
Proof.
  intro Hb. induction items as [|lv rest IH]; intro li; simpl.
  - apply preserves_ret.
  - apply preserves_bind; [apply Hb | intros _; apply IH].
Qed.

Lemma preserves_comprehension (f : ref -> M ref) (items : list ref) :
  (forall v, preserves h0 (f v)) -> preserves h0 (comprehension f items).
Proof.
  intro Hf. induction items as [|v rest IH]; simpl.
  - apply preserves_ret.
  - apply preserves_bind; [apply Hf|]. intro v'.
    apply preserves_bind; [exact IH|]. intro rest'. apply preserves_ret.
Qed.

(** [dict(g)] writes to the dict it has just allocated only, if [g] itself
    changes nothing but through [yield]. *)
Lemma preserves_dict_from (g : (string * ref -> M unit) -> M unit) :
  (forall yield, (forall kv, preserves h0 (yield kv)) -> preserves h0 (g yield)) ->
  preserves h0 (dict_from g).
Proof.
  intro Hg. unfold dict_from. apply preserves_alloc. intros l Hl.
  apply preserves_bind.
  - apply Hg. intro kv. apply preserves_dict_setitem. exact Hl.
  - intros _. apply preserves_ret.
Qed.

Lemma returns_new_dict_from (g : (string * ref -> M unit) -> M unit) :
  returns_new h0 (dict_from g).
Proof.
  intros s l Hs. unfold dict_from, bind, alloc.
  match goal with
  | |- context [g ?y ?st] => destruct (g y st) as [[u|e] s']
  end; simpl; intro H; [|discriminate].
  injection H as <-. apply unchanged_length. exact Hs.
Qed.

Lemma preserves_forValue (fuel : nat) (value : ref) :
  preserves h0 (forValue fuel value).
Proof.
  revert value. induction fuel as [|fuel IH]; intro value; simpl.
  - apply preserves_raise.
  - apply preserves_catch; [|intros _; apply preserves_ret].
    apply preserves_bind; [apply preserves_isinstance_ref|]. intros [|].
    + apply preserves_bind; [apply preserves_fields_of|].
      intro d. apply preserves_ret.
    + apply preserves_bind; [apply preserves_isinstance_ref|]. intros [|].
      * apply preserves_bind; [apply preserves_items_of|].
        intros [|first rest]; [apply preserves_raise | apply IH].
      * apply preserves_bind; [apply preserves_type_of_ref|].
        intro c. apply preserves_lift.
Qed.

Lemma preserves_transform_scalar (value : ref) :
  preserves h0 (transform_scalar value).
Proof.
  destruct value; simpl; [|apply preserves_raise].
  apply preserves_bind; [apply preserves_lift|]. intro v'. apply preserves_ret.
Qed.

Lemma preserves_kernel_body (fuel : nat) (first_call : bool)
  (yield : string * ref -> M unit) (new_key : option string)
  (pair : string * ref) :
  (forall kv, preserves h0 (yield kv)) ->
  preserves h0 (DefaultDocumentFormatter.kernel_body fuel first_call yield new_key pair).
Proof.
  intro Hy. destruct pair as [new_k new_v].
  unfold DefaultDocumentFormatter.kernel_body.
  apply preserves_bind.
  - destruct first_call; [|apply preserves_ret].
    apply preserves_bind; [apply preserves_forValue|].
    intro ty. destruct (negb _); apply preserves_ret.
  - intros [k|]; [|apply preserves_raise].
    apply preserves_bind; [apply Hy | intros _; apply preserves_ret].
Qed.

(** The default formatter, all four methods at once, by the depth of the
    call stack. *)
Lemma preserves_default (fuel : nat) :
  (forall value, preserves h0 (DefaultDocumentFormatter.transform_value fuel value))
  /\ (forall key value,
        preserves h0 (DefaultDocumentFormatter.transform_element fuel key value))
  /\ (forall first_call doc yield,
        (forall kv, preserves h0 (yield kv)) ->
        preserves h0 (DefaultDocumentFormatter._kernel fuel first_call doc yield))
  /\ (forall document first_call,
        preserves h0 (DefaultDocumentFormatter.format_document fuel document first_call)).
Proof.
  induction fuel as [|fuel [IHv [IHe [IHk IHf]]]].
  - repeat split; intros; apply preserves_raise.
  - repeat split.
    + intro value. simpl.
      apply preserves_bind; [apply preserves_isinstance_ref|]. intros [|].
      * apply IHf.
      * apply preserves_bind; [apply preserves_isinstance_ref|]. intros [|].
        -- apply preserves_bind; [apply preserves_items_of|]. intro items.
           apply preserves_bind; [apply preserves_comprehension; exact IHv|].
           intro items'. apply preserves_alloc. intros l _. apply preserves_ret.
        -- apply preserves_transform_scalar.
    + intros key value. simpl.
      apply preserves_bind; [apply preserves_attempt; apply IHv|].
      intros [new_value|e]; [apply preserves_ret|].
      destruct e; try apply preserves_raise.
      apply preserves_bind; [apply preserves_warn | intros _; apply preserves_ret].
    + intros first_call doc yield Hy. simpl.
      apply preserves_bind; [apply preserves_fields_of|]. intro fields.
      apply preserves_bind; [|intros _; apply preserves_ret].
      apply preserves_for_fold. intros new_key kv.
      apply preserves_bind; [apply IHe|]. intro pairs.
      apply preserves_for_fold. intros acc pair.
      apply preserves_kernel_body. exact Hy.
    + intros document first_call. simpl.
      apply preserves_dict_from. intros yield Hy. apply IHk. exact Hy.
Qed.

Lemma preserves_flattener_transform_value (fuel : nat) (value : ref) :
  preserves h0 (DocumentFlattener.transform_value fuel value).
Proof.
  revert value. induction fuel as [|fuel IH]; intro value; simpl.
  - apply preserves_raise.
  - apply preserves_bind; [apply preserves_isinstance_ref|]. intros [|].
    + apply preserves_raise.
    + apply preserves_bind; [apply preserves_isinstance_ref|]. intros [|].
      * apply preserves_bind; [apply preserves_items_of|]. intro items.
        apply preserves_bind; [apply preserves_comprehension; exact IH|].
        intro items'. apply preserves_alloc. intros l _. apply preserves_ret.
      * apply preserves_transform_scalar.
Qed.

Lemma preserves_emit (fuel : nat) (top_level : bool) (path_string : string)
  (yield : string * ref -> M unit) (pair : string * ref) :
  (forall kv, preserves h0 (yield kv)) ->
  preserves h0 (DocumentFlattener.emit fuel top_level path_string yield pair).
Proof.
  intro Hy. destruct pair as [new_k new_v]. unfold DocumentFlattener.emit.
  destruct top_level; [|apply Hy].
  apply preserves_bind; [apply preserves_forValue|]. intro ty.
  apply preserves_bind; [apply preserves_lift|]. intro new_key. apply Hy.
Qed.

(** The flattener: [flatten] appends to and pops from [path], a list that
    the call has allocated itself. *)
Lemma preserves_flattener (fuel : nat) :
  (forall key value yield,
     (forall kv, preserves h0 (yield kv)) ->
     preserves h0 (DocumentFlattener.transform_element fuel key value yield))
  /\ (forall doc path yield,
        (length h0 <= path)%nat ->
        (forall kv, preserves h0 (yield kv)) ->
        preserves h0 (DocumentFlattener.flatten fuel doc path yield))
  /\ (forall document,
        preserves h0 (DocumentFlattener.format_document fuel document)).
Proof.
  induction fuel as [|fuel [IHe [IHfl IHf]]].
  - repeat split; intros; apply preserves_raise.
  - repeat split.
    + intros key value yield Hy. simpl.
      apply preserves_bind; [apply preserves_isinstance_ref|]. intros [|].
      * apply preserves_bind; [apply preserves_items_of|]. intro items.
        apply preserves_for_enumerate. intros li lv. apply IHe. exact Hy.
      * apply preserves_bind; [apply preserves_isinstance_ref|]. intros [|].
        -- apply preserves_bind; [apply IHf|]. intro formatted.
           apply preserves_bind; [apply preserves_fields_of|]. intro fields.
           apply preserves_for_each. intro kv. apply Hy.
        -- apply preserves_bind; [apply preserves_flattener_transform_value|].
           intro new_value. apply Hy.
    + intros doc path yield Hp Hy. simpl.
      apply preserves_bind; [apply (preserves_items_of (Ptr path))|].
      intro segments.
      apply preserves_bind.
      { destruct (length segments =? 0)%nat; [apply preserves_ret|].
        apply preserves_bind; [apply (preserves_items_of (Ptr path))|].
        intro items. apply preserves_ret. }
      intro path_string.
      apply preserves_bind; [apply preserves_fields_of|]. intro fields.
      apply preserves_for_each. intros [k v].
      apply preserves_bind; [apply preserves_isinstance_ref|]. intros [|].
      * apply preserves_bind; [apply preserves_list_append; exact Hp|].
        intros _. apply preserves_bind; [apply IHfl; assumption|].
        intros _. apply preserves_list_pop. exact Hp.
      * apply IHe. intro kv. apply preserves_emit. exact Hy.
    + intro document. simpl.
      apply preserves_alloc. intros path Hp.
      apply preserves_dict_from. intros yield Hy. apply IHfl; assumption.
Qed.

End Frame.

(** C10: whatever the store and the depth of the stack, [format_document]
    of either formatter and [transform_value] leave every list and dict
    that existed before the call exactly as it was, also when the call
    ends in an exception; a mapping that [format_document] returns is an
    object that did not exist before the call. *)
Theorem format_document_leaves_input (h0 : list Store.obj) (w : list string)
  (fuel : nat) (document value : Store.ref) (first_call : bool) :
  let s0 := Store.mkState h0 w in
  Store.unchanged h0
    (snd (Store.DefaultDocumentFormatter.format_document fuel document first_call s0))
  /\ Store.unchanged h0
       (snd (Store.DocumentFlattener.format_document fuel document s0))
  /\ Store.unchanged h0
       (snd (Store.DefaultDocumentFormatter.transform_value fuel value s0))
  /\ Store.unchanged h0
       (snd (Store.DocumentFlattener.transform_value fuel value s0))
  /\ (forall l,
        fst (Store.DefaultDocumentFormatter.format_document fuel document first_call s0)
        = Ok (Store.Ptr l) ->
        nth_error h0 l = None)
  /\ (forall l,
        fst (Store.DocumentFlattener.format_document fuel document s0)
        = Ok (Store.Ptr l) ->
        nth_error h0 l = None).
Proof.
  intro s0.
  assert (Hs0 : Store.unchanged h0 s0) by (intros l o H; exact H).
  destruct (preserves_default h0 fuel) as [Hv [_ [_ Hf]]].
  destruct (preserves_flattener h0 fuel) as [_ [_ Hff]].
  split; [apply Hf; exact Hs0|].
  split; [apply Hff; exact Hs0|].
  split; [apply Hv; exact Hs0|].
  split; [apply (@preserves_flattener_transform_value h0); exact Hs0|].
  split.
  - intros l H. apply nth_error_None.
    destruct fuel as [|fuel]; [discriminate H|].
    exact (@returns_new_dict_from h0 _ s0 l Hs0 H).
  - intros l H. apply nth_error_None.
    destruct fuel as [|fuel]; [discriminate H|].
    simpl in H. unfold Store.bind at 1 in H. simpl in H.
    refine (@returns_new_dict_from h0 _ _ l _ H).
    intros l' o' E. simpl. rewrite nth_error_app1.
    + exact E.
    + apply nth_error_Some. congruence.
Qed.

(** ** The default formatter and invalid values *)

Lemma fst_bindL {A B} (c : logged A) (f : A -> logged B) :
  fst (bindL c f) = match fst c with
                    | Ok a => fst (f a)
                    | Raise e => Raise e
                    end.
Proof.
  destruct c as [[a|e] w]; simpl; [|reflexivity].
  destruct (f a); reflexivity.
Qed.

Lemma kernel_with_cons (tv : pyvalue -> logged pyvalue) (first_call : bool)
  (key : string) (value : pyvalue) (rest : dict) (new_key : option string) :
  DefaultDocumentFormatter.kernel_with tv first_call ((key, value) :: rest) new_key
  = (pairs <-- DefaultDocumentFormatter.transform_element_with tv key value ;;
     step <-- lift (DefaultDocumentFormatter.kernel_inner first_call new_key pairs) ;;
     more <-- DefaultDocumentFormatter.kernel_with tv first_call rest (fst step) ;;
     ret (snd step ++ more)%list).
Proof. reflexivity. Qed.

Lemma kernel_inner_raises (first_call : bool) (new_key : option string)
  (pairs : list (string * pyvalue)) (e : exn) :
  DefaultDocumentFormatter.kernel_inner first_call new_key pairs = Raise e ->
  e = UnboundLocalError.
Proof.
  revert new_key. induction pairs as [|[new_k new_v] rest IH]; intros new_key H.
  - discriminate.
  - simpl in H.
    destruct (DefaultDocumentFormatter.kernel_body first_call new_key new_k new_v)
      as [step|e'] eqn:E; simpl in H.
    + destruct (DefaultDocumentFormatter.kernel_inner first_call (fst step) rest)
        as [more|e'] eqn:E'; simpl in H; [discriminate|].
      injection H as <-. eapply IH. exact E'.
    + injection H as <-. unfold DefaultDocumentFormatter.kernel_body in E.
      destruct first_call.
      * destruct (forValue_returns new_v) as [t Ht]. rewrite Ht in E. simpl in E.
        destruct (negb _); simpl in E; [discriminate|].
        destruct new_key; simpl in E; congruence.
      * discriminate.
Qed.

Lemma fst_transform_element_with (tv : pyvalue -> logged pyvalue)
  (key : string) (value : pyvalue) :
  fst (DefaultDocumentFormatter.transform_element_with tv key value)
  = match fst (tv value) with
    | Ok new_value => Ok [(key, new_value)]
    | Raise (ValueError _) => Ok []
    | Raise e => Raise e
    end.
Proof.
  unfold DefaultDocumentFormatter.transform_element_with.
  destruct (tv value) as [[new_value|[]] w]; reflexivity.
Qed.

Lemma fst_kernel_with_cons (tv : pyvalue -> logged pyvalue) (first_call : bool)
  (key : string) (value : pyvalue) (rest : dict) (new_key : option string) :
  fst (DefaultDocumentFormatter.kernel_with tv first_call ((key, value) :: rest) new_key)
  = match fst (DefaultDocumentFormatter.transform_element_with tv key value) with
    | Ok pairs =>
        match DefaultDocumentFormatter.kernel_inner first_call new_key pairs with
        | Ok step =>
            match fst (DefaultDocumentFormatter.kernel_with tv first_call rest
                         (fst step)) with
            | Ok more => Ok (snd step ++ more)%list
            | Raise e => Raise e
            end
        | Raise e => Raise e
        end
    | Raise e => Raise e
    end.
Proof.
  rewrite kernel_with_cons, fst_bindL.
  destruct (fst (DefaultDocumentFormatter.transform_element_with tv key value))
    as [pairs|e]; [|reflexivity].
  rewrite fst_bindL. unfold lift. cbn [fst].
  destruct (DefaultDocumentFormatter.kernel_inner first_call new_key pairs)
    as [step|e]; [|reflexivity].
  rewrite fst_bindL.
  destruct (fst (DefaultDocumentFormatter.kernel_with tv first_call rest (fst step)));
    reflexivity.
Qed.

(** A [ValueError] never leaves [_kernel], whatever [transform_value] does. *)
Lemma kernel_with_no_ValueError (tv : pyvalue -> logged pyvalue)
  (first_call : bool) (doc : dict) (new_key : option string) (msg : string) :
  fst (DefaultDocumentFormatter.kernel_with tv first_call doc new_key)
  <> Raise (ValueError msg).
Proof.
  revert new_key. induction doc as [|[key value] rest IH]; intro new_key.
  - discriminate.
  - rewrite fst_kernel_with_cons, fst_transform_element_with.
    assert (G : forall pairs,
               match DefaultDocumentFormatter.kernel_inner first_call new_key pairs with
               | Ok step =>
                   match fst (DefaultDocumentFormatter.kernel_with tv first_call
                                rest (fst step)) with
                   | Ok more => Ok (snd step ++ more)%list
                   | Raise e => Raise e
                   end
               | Raise e => Raise e
               end <> Raise (ValueError msg)).
    { intro pairs.
      destruct (DefaultDocumentFormatter.kernel_inner first_call new_key pairs)
        as [step|e] eqn:E.
      - specialize (IH (fst step)).
        destruct (fst (DefaultDocumentFormatter.kernel_with tv first_call rest
                         (fst step))); [discriminate | exact IH].
      - apply kernel_inner_raises in E. subst e. discriminate. }
    destruct (fst (tv value)) as [new_value|[]]; try apply G; discriminate.
Qed.

(** A field whose value [transform_value] rejects with a [ValueError] is as
    good as absent: the pairs [_kernel] yields, or the exception it ends
    with, are those of the document without the field. *)
Lemma kernel_with_drops_invalid (tv : pyvalue -> logged pyvalue)
  (first_call : bool) (before after : dict) (key : string) (value : pyvalue)
  (msg : string) (w : list string) (new_key : option string) :
  tv value = (Raise (ValueError msg), w) ->
  fst (DefaultDocumentFormatter.kernel_with tv first_call
         (before ++ (key, value) :: after)%list new_key)
  = fst (DefaultDocumentFormatter.kernel_with tv first_call
           (before ++ after)%list new_key).
Proof.
  intro Hv. revert new_key.
  induction before as [|[k0 v0] before IH]; intro new_key.
  - simpl app. rewrite fst_kernel_with_cons, fst_transform_element_with, Hv.
    cbn [fst DefaultDocumentFormatter.kernel_inner snd app].
    destruct (fst (DefaultDocumentFormatter.kernel_with tv first_call after
                     new_key)); reflexivity.
  - change (((k0, v0) :: before) ++ (key, value) :: after)%list
      with ((k0, v0) :: (before ++ (key, value) :: after))%list.
    change (((k0, v0) :: before) ++ after)%list
      with ((k0, v0) :: (before ++ after))%list.
    rewrite !fst_kernel_with_cons.
    destruct (fst (DefaultDocumentFormatter.transform_element_with tv k0 v0))
      as [pairs|e]; [|reflexivity].
    destruct (DefaultDocumentFormatter.kernel_inner first_call new_key pairs)
      as [step|e]; [|reflexivity].
    rewrite IH. reflexivity.
Qed.

(** The non-flattening half of C2: in [DefaultDocumentFormatter] a field
    whose value is rejected with [ValueError] is omitted, the result is
    that of the document without the field, and no [ValueError] leaves
    [format_document]. *)
Lemma default_format_document_drops_invalid (before after : dict)
  (key : string) (value : pyvalue) (msg : string) (w : list string)
  (first_call : bool) :
  DefaultDocumentFormatter.transform_value value = (Raise (ValueError msg), w) ->
  fst (DefaultDocumentFormatter.format_document
         (before ++ (key, value) :: after)%list first_call)
  = fst (DefaultDocumentFormatter.format_document (before ++ after)%list first_call)
  /\ (forall msg',
        fst (DefaultDocumentFormatter.format_document
               (before ++ (key, value) :: after)%list first_call)
        <> Raise (ValueError msg')).
Proof.
  intro Hv. unfold DefaultDocumentFormatter.format_document,
    DefaultDocumentFormatter._kernel.
  split.
  - rewrite !fst_bindL.
    rewrite (@kernel_with_drops_invalid _ first_call before after key value msg w None Hv).
    reflexivity.
  - intro msg'. rewrite fst_bindL.
    pose proof (@kernel_with_no_ValueError DefaultDocumentFormatter.transform_value
                  first_call (before ++ (key, value) :: after)%list None msg') as N.
    destruct (fst (DefaultDocumentFormatter.kernel_with _ first_call _ None));
      [discriminate | exact N].
Qed.

(** Where the key lacks the prefix of its value, [_kernel] yields the pair
    under the prefixed key. *)
Lemma kernel_body_prefixes (new_key : option string) (new_k : string)
  (new_v : pyvalue) (ty : DataType.t) :
  DataType.forValue new_v = Ok ty ->
  startswith new_k (DataType.prefix ty) = false ->
  DefaultDocumentFormatter.kernel_body true new_key new_k new_v
  = Ok (Some (DataType.prefix ty ++ new_k), (DataType.prefix ty ++ new_k, new_v)).
Proof.
  intros Ht Hs. unfold DefaultDocumentFormatter.kernel_body.
  rewrite Ht. simpl. rewrite Hs. reflexivity.
Qed.
